(** * Verification model of jules_job_manager: the MCP transport client
    (src/mcp_client.py), the task store (src/storage.py) and the repository
    check of job_manager.py.

    Python values are modelled as follows.
    - A Python [str] is a list of Unicode code points ([pystr]).
    - JSON values ([json]) are the values produced by [json.loads]; numbers
      are integers (floats are not modelled).
    - A Python [dict] is an association list in insertion order, with
      assignment updating in place and appending new keys, as CPython does.
    - Exceptions are the constructors of [exn]; a computation that may raise
      and threads state is a function [S -> outcome A * S].
    - [json.loads] and [json.dumps] are library functions; they are the
      variables [json_loads] and [json_dumps] of the section [Json] below, so
      everything is proved for every parser and serializer. *)

From Stdlib Require Import List ZArith Bool Lia Permutation Sorted.
From Stdlib Require Import String Ascii Strings.Byte.
Import ListNotations.
Open Scope Z_scope.
Set Warnings "-register-all".

(** ** Python strings *)

Definition pystr := list Z.

(** A Rocq string literal (ASCII) as a Python string. *)
Definition str_of (s : string) : pystr :=
  map (fun a => Z.of_nat (nat_of_ascii a)) (list_ascii_of_string s).

Fixpoint pystr_eqb (s t : pystr) : bool :=
  match s, t with
  | [], [] => true
  | c :: s', d :: t' => Z.eqb c d && pystr_eqb s' t'
  | _, _ => false
  end.

(** [str.isspace] of CPython for one code point. *)
Definition py_isspace (c : Z) : bool :=
  ((9 <=? c) && (c <=? 13)) || ((28 <=? c) && (c <=? 32)) || (c =? 133)
  || (c =? 160) || (c =? 5760) || ((8192 <=? c) && (c <=? 8202))
  || (c =? 8232) || (c =? 8233) || (c =? 8239) || (c =? 8287)
  || (c =? 12288).

Fixpoint lstrip (s : pystr) : pystr :=
  match s with
  | c :: s' => if py_isspace c then lstrip s' else s
  | [] => []
  end.

(** [str.strip()] *)
Definition strip (s : pystr) : pystr := rev (lstrip (rev (lstrip s))).

(** [sub in s] for a one-character [sub]. *)
Definition contains_char (c : Z) (s : pystr) : bool := existsb (Z.eqb c) s.

(** [str(n)] of a non-negative Python int. *)
Fixpoint digits_rev (fuel : nat) (n : Z) : pystr :=
  match fuel with
  | O => []
  | S f => (48 + n mod 10) :: (if n <? 10 then [] else digits_rev f (n / 10))
  end.

Definition str_of_nat (n : Z) : pystr := rev (digits_rev (Z.to_nat n + 1) n).

(** Lexicographic order of Python strings (code point by code point). *)
Fixpoint pystr_ltb (s t : pystr) : bool :=
  match s, t with
  | [], [] => false
  | [], _ :: _ => true
  | _ :: _, [] => false
  | c :: s', d :: t' => (c <? d) || ((c =? d) && pystr_ltb s' t')
  end.

(** ** JSON values and dictionaries *)

Inductive json : Type :=
| JNull
| JBool (b : bool)
| JNum (n : Z)
| JStr (s : pystr)
| JArr (xs : list json)
| JObj (kvs : list (pystr * json)).

Definition dict (A : Type) := list (pystr * A).

Section Dict.
Context {A : Type}.

(** [d.get(k)] *)
Fixpoint dget (k : pystr) (d : dict A) : option A :=
  match d with
  | [] => None
  | (k', v) :: d' => if pystr_eqb k k' then Some v else dget k d'
  end.

Definition dmem (k : pystr) (d : dict A) : bool :=
  match dget k d with Some _ => true | None => false end.

(** [d[k] = v]: an existing key keeps its position, a new one is appended. *)
Fixpoint dset (k : pystr) (v : A) (d : dict A) : dict A :=
  match d with
  | [] => [(k, v)]
  | (k', v') :: d' =>
      if pystr_eqb k k' then (k', v) :: d' else (k', v') :: dset k v d'
  end.

(** [del d[k]] for a present key. *)
Fixpoint ddel (k : pystr) (d : dict A) : dict A :=
  match d with
  | [] => []
  | (k', v') :: d' => if pystr_eqb k k' then d' else (k', v') :: ddel k d'
  end.

(** [d.values()] *)
Definition dvalues (d : dict A) : list A := map snd d.

End Dict.

(** Python [==] on JSON values: [True == 1] and [False == 0] hold, and dict
    equality ignores insertion order. *)
Fixpoint py_eq (a b : json) : bool :=
  match a, b with
  | JNull, JNull => true
  | JBool x, JBool y => Bool.eqb x y
  | JBool x, JNum n => Z.eqb n (if x then 1 else 0)
  | JNum n, JBool x => Z.eqb n (if x then 1 else 0)
  | JNum x, JNum y => Z.eqb x y
  | JStr s, JStr t => pystr_eqb s t
  | JArr xs, JArr ys =>
      (fix go (xs ys : list json) : bool :=
         match xs, ys with
         | [], [] => true
         | x :: xs', y :: ys' => py_eq x y && go xs' ys'
         | _, _ => false
         end) xs ys
  | JObj xs, JObj ys =>
      Nat.eqb (List.length xs) (List.length ys) &&
      (fix go (xs : list (pystr * json)) : bool :=
         match xs with
         | [] => true
         | (k, v) :: xs' =>
             match dget k ys with
             | Some w => py_eq v w && go xs'
             | None => false
             end
         end) xs
  | _, _ => false
  end.


(** ** Exceptions and the state-and-error monad *)

(** Python exceptions, with their message where the code sets one. *)
Inductive exn : Type :=
| RuntimeError (m : pystr)
| KeyError (m : pystr)
| ValueError (m : pystr)
| TimeoutError
| TypeError
| FileNotFoundError
| UnicodeDecodeError
| UnicodeEncodeError.

Inductive outcome (A : Type) : Type :=
| Ok (a : A)
| Raise (e : exn).
Arguments Ok {A} a.
Arguments Raise {A} e.

Definition ST (S A : Type) := S -> outcome A * S.

Definition ret {S A} (a : A) : ST S A := fun s => (Ok a, s).
Definition throw {S A} (e : exn) : ST S A := fun s => (Raise e, s).
Definition bind {S A B} (m : ST S A) (k : A -> ST S B) : ST S B :=
  fun s => match m s with
           | (Ok a, s') => k a s'
           | (Raise e, s') => (Raise e, s')
           end.
Definition get {S} : ST S S := fun s => (Ok s, s).
Definition put {S} (s : S) : ST S unit := fun _ => (Ok tt, s).

Notation "x <- m ;; k" := (bind m (fun x => k))
  (at level 61, m at next level, right associativity).
Notation "m ;;; k" := (bind m (fun _ => k))
  (at level 61, right associativity).

(** [try: m finally: f]: [f] runs on both exits, the result of [m] is kept. *)
Definition try_finally {S A} (m : ST S A) (f : ST S unit) : ST S A :=
  fun s => match m s with
           | (r, s') => match f s' with
                        | (Ok _, s'') => (r, s'')
                        | (Raise e, s'') => (Raise e, s'')
                        end
           end.

(** ** UTF-8, as Python's strict codec *)

Definition byte_z (b : byte) : Z := Z.of_N (Byte.to_N b).
Definition z_byte (z : Z) : byte :=
  match Byte.of_N (Z.to_N z) with Some b => b | None => x00 end.

(** Lead byte of a multi-byte sequence: number of continuation bytes, range
    of the first continuation byte, payload bits (RFC 3629 table 3-7). *)
Definition utf8_lead (b : Z) : option (nat * Z * Z * Z) :=
  if (194 <=? b) && (b <=? 223) then Some (1%nat, 128, 191, b - 192)
  else if b =? 224 then Some (2%nat, 160, 191, 0)
  else if (225 <=? b) && (b <=? 236) then Some (2%nat, 128, 191, b - 224)
  else if b =? 237 then Some (2%nat, 128, 159, 13)
  else if (238 <=? b) && (b <=? 239) then Some (2%nat, 128, 191, b - 224)
  else if b =? 240 then Some (3%nat, 144, 191, 0)
  else if (241 <=? b) && (b <=? 243) then Some (3%nat, 128, 191, b - 240)
  else if b =? 244 then Some (3%nat, 128, 143, 4)
  else None.

Fixpoint utf8_dec (need : nat) (lo hi acc : Z) (bs : list Z)
  : option pystr :=
  match bs with
  | [] => match need with O => Some [] | S _ => None end
  | b :: r =>
      match need with
      | O =>
          if b <? 128 then option_map (cons b) (utf8_dec O 0 0 0 r)
          else match utf8_lead b with
               | Some (n, lo', hi', bits) => utf8_dec n lo' hi' bits r
               | None => None
               end
      | S n' =>
          if (lo <=? b) && (b <=? hi) then
            let acc' := acc * 64 + (b - 128) in
            match n' with
            | O => option_map (cons acc') (utf8_dec O 0 0 0 r)
            | S _ => utf8_dec n' 128 191 acc' r
            end
          else None
      end
  end.

(** [bytes.decode("utf-8")]; [None] is [UnicodeDecodeError]. *)
Definition utf8_decode (bs : list byte) : option pystr :=
  utf8_dec O 0 0 0 (map byte_z bs).

Definition utf8_encode_char (c : Z) : option (list Z) :=
  if (c <? 0) then None
  else if c <? 128 then Some [c]
  else if c <? 2048 then Some [192 + c / 64; 128 + c mod 64]
  else if (55296 <=? c) && (c <=? 57343) then None
  else if c <? 65536 then
    Some [224 + c / 4096; 128 + (c / 64) mod 64; 128 + c mod 64]
  else if c <? 1114112 then
    Some [240 + c / 262144; 128 + (c / 4096) mod 64;
          128 + (c / 64) mod 64; 128 + c mod 64]
  else None.

(** [str.encode("utf-8")]; [None] is [UnicodeEncodeError] (surrogates). *)
Fixpoint utf8_encode (s : pystr) : option (list byte) :=
  match s with
  | [] => Some []
  | c :: s' =>
      match utf8_encode_char c, utf8_encode s' with
      | Some bs, Some rest => Some (map z_byte bs ++ rest)
      | _, _ => None
      end
  end.

(** Universal-newline translation of text-mode reads. *)
Fixpoint univ_newlines (s : pystr) : pystr :=
  match s with
  | [] => []
  | c :: s' =>
      if c =? 13 then
        match s' with
        | d :: s'' => if d =? 10 then 10 :: univ_newlines s''
                      else 10 :: univ_newlines s'
        | [] => [10]
        end
      else c :: univ_newlines s'
  end.

(** ** File system

    A file is its bytes and its modification time; [clock] is the time a
    write stamps on a file.  Paths are compared as strings, so they are
    taken in the normal form [pathlib] prints them in. *)

Record file : Type := mkFile { f_bytes : list byte; f_mtime : Z }.
Record fsys : Type := mkFs { files : dict file; clock : Z }.

(** [os.path.exists] *)
Definition path_exists (p : pystr) (fs : fsys) : bool := dmem p (files fs).

(** [os.path.getmtime] if [os.path.exists], else [None]. *)
Definition current_mtime (p : pystr) (fs : fsys) : option Z :=
  option_map f_mtime (dget p (files fs)).

(** [open(p, "r", encoding="utf-8").read()]: strict UTF-8 decoding, then the
    universal-newline translation of text mode. *)
Definition read_text (p : pystr) (fs : fsys) : outcome pystr :=
  match dget p (files fs) with
  | None => Raise FileNotFoundError
  | Some f =>
      match utf8_decode (f_bytes f) with
      | Some t => Ok (univ_newlines t)
      | None => Raise UnicodeDecodeError
      end
  end.

(** [open(p, "w", encoding="utf-8")]: creates or truncates the file. *)
Definition open_w (p : pystr) : ST fsys unit :=
  fun fs => (Ok tt, mkFs (dset p (mkFile [] (clock fs)) (files fs)) (clock fs)).

(** [handle.write(s)] on a file opened by [open_w] (newlines are written as
    they are, as on POSIX). *)
Definition write_text (p : pystr) (s : pystr) : ST fsys unit :=
  fun fs => match utf8_encode s with
            | Some bs =>
                (Ok tt, mkFs (dset p (mkFile bs (clock fs)) (files fs)) (clock fs))
            | None => (Raise UnicodeEncodeError, fs)
            end.

(** [os.replace(src, dst)]: one rename; replacing a path by itself does
    nothing. *)
Definition os_replace (src dst : pystr) : ST fsys unit :=
  fun fs => match dget src (files fs) with
            | Some f =>
                if pystr_eqb src dst then (Ok tt, fs)
                else (Ok tt, mkFs (dset dst f (ddel src (files fs))) (clock fs))
            | None => (Raise FileNotFoundError, fs)
            end.

(** [Path(p).touch()] on a missing path. *)
Definition touch (p : pystr) : ST fsys unit :=
  fun fs => (Ok tt, mkFs (dset p (mkFile [] (clock fs)) (files fs)) (clock fs)).

(** [Path(p).unlink()] on an existing path. *)
Definition unlink (p : pystr) : ST fsys unit :=
  fun fs => (Ok tt, mkFs (ddel p (files fs)) (clock fs)).

(** ** pathlib: [Path(p).with_suffix(suffix)] *)

Fixpoint takewhile (f : Z -> bool) (s : pystr) : pystr :=
  match s with
  | c :: s' => if f c then c :: takewhile f s' else []
  | [] => []
  end.

Fixpoint dropwhile (f : Z -> bool) (s : pystr) : pystr :=
  match s with
  | c :: s' => if f c then dropwhile f s' else s
  | [] => []
  end.

Definition not_slash (c : Z) : bool := negb (c =? 47).
Definition not_dot (c : Z) : bool := negb (c =? 46).

(** The last component of a path, and what precedes it. *)
Definition path_name (p : pystr) : pystr := rev (takewhile not_slash (rev p)).
Definition path_dir (p : pystr) : pystr := rev (dropwhile not_slash (rev p)).

(** [PurePath.stem]: the name without its suffix, where the suffix starts at
    the last dot of the name when that dot is neither its first nor its last
    character. *)
Definition path_stem (name : pystr) : pystr :=
  let nr := rev name in
  match takewhile not_dot nr, dropwhile not_dot nr with
  | _ :: _, _ :: (_ :: _) as stem_r => rev stem_r
  | _, _ => name
  end.

Definition with_suffix (p suffix : pystr) : outcome pystr :=
  match path_name p with
  | [] => Raise (ValueError (str_of "empty name"))
  | name => Ok (path_dir p ++ path_stem name ++ suffix)
  end.

(** ** Input checks of job_manager.py *)

(** [_validate_repository]; [None] is Python's [None]. *)
Definition validate_repository (repository : option pystr) : outcome pystr :=
  match repository with
  | None => Raise (ValueError (str_of "Repository is required"))
  | Some r =>
      let stripped := strip r in
      match stripped with
      | [] => Raise (ValueError (str_of "Repository cannot be blank"))
      | _ =>
          if negb (contains_char 47 stripped)
          then Raise (ValueError (str_of "Repository must include owner and name"))
          else Ok stripped
      end
  end.

(** [_validate_description] *)
Definition validate_description (description : option pystr) : outcome pystr :=
  match description with
  | None => Raise (ValueError (str_of "Task description is required"))
  | Some d =>
      match strip d with
      | [] => Raise (ValueError (str_of "Task description cannot be blank"))
      | stripped => Ok stripped
      end
  end.

Definition branch_allowed : pystr :=
  str_of "abcdefghijklmnopqrstuvwxyzABCDEFGHIJKLMNOPQRSTUVWXYZ0123456789-_/".

(** [_normalize_branch] *)
Definition normalize_branch (branch : option pystr) : outcome pystr :=
  match branch with
  | None => Ok (str_of "main")
  | Some b =>
      match strip b with
      | [] => Ok (str_of "main")
      | stripped =>
          if forallb (fun ch => contains_char ch branch_allowed) stripped
          then Ok stripped
          else Raise (ValueError (str_of "Branch contains invalid characters"))
      end
  end.

(** The first three statements of [create_task]: the payload fields it
    sends to MCP, or the [ValueError] it raises before any call is made. *)
Definition create_task_inputs (description repository branch : option pystr)
  : outcome (pystr * pystr * pystr) :=
  match validate_description description with
  | Raise e => Raise e
  | Ok d =>
      match validate_repository repository with
      | Raise e => Raise e
      | Ok r =>
          match normalize_branch branch with
          | Raise e => Raise e
          | Ok b => Ok (d, r, b)
          end
      end
  end.

(** The characters [_validate_task_identifier] allows. *)
Definition id_allowed : pystr :=
  str_of "abcdefghijklmnopqrstuvwxyzABCDEFGHIJKLMNOPQRSTUVWXYZ0123456789-_".

(** [_validate_task_identifier] *)
Definition validate_task_identifier (task_id : option pystr) : outcome pystr :=
  match task_id with
  | None => Raise (ValueError (str_of "Task identifier is required"))
  | Some t =>
      match strip t with
      | [] => Raise (ValueError (str_of "Task identifier cannot be blank"))
      | stripped =>
          if forallb (fun ch => contains_char ch id_allowed) stripped
          then Ok stripped
          else Raise (ValueError (str_of "Task identifier contains invalid characters"))
      end
  end.

(** [_validate_message_content] *)
Definition validate_message_content (message : option pystr) : outcome pystr :=
  match message with
  | None => Raise (ValueError (str_of "Message text is required"))
  | Some m =>
      match strip m with
      | [] => Raise (ValueError (str_of "Message text cannot be blank"))
      | stripped => Ok stripped
      end
  end.



(** ** The task store (storage.py) and the client (mcp_client.py) *)

Section Json.

(** [json.loads] on a text; [None] is [json.JSONDecodeError]. *)
Variable json_loads : pystr -> option json.
(** [json.dumps(v, indent=2, sort_keys=True)] *)
Variable json_dumps : json -> pystr.
(** [str(v)] of a JSON value that is not a string. *)
Variable py_repr : json -> pystr.

(** A lemma takes only the variables its statement mentions. *)
#[local] Set Default Proof Using "Type".

(** [str(v)] *)
Definition py_str (v : json) : pystr :=
  match v with
  | JStr s => s
  | _ => py_repr v
  end.

Definition task := dict json.
Definition tasks := dict task.

Record manager : Type := mkManager {
  file_path : pystr;
  lock : pystr;
  cache : option tasks;
  cache_mtime : option Z;
  cache_serialized : option pystr
}.

Record store : Type := mkStore { fs : fsys; mgr : manager }.

Definition on_fs {A} (m : ST fsys A) : ST store A :=
  fun s => let (r, fs') := m (fs s) in (r, mkStore fs' (mgr s)).

Definition set_mgr (m : manager) : ST store unit :=
  fun s => (Ok tt, mkStore (fs s) m).

Definition get_mgr : ST store manager := fun s => (Ok (mgr s), s).
Definition get_fs : ST store fsys := fun s => (Ok (fs s), s).

Definition with_cache (m : manager) (c : option tasks) : manager :=
  mkManager (file_path m) (lock m) c (cache_mtime m) (cache_serialized m).
Definition with_cache_mtime (m : manager) (t : option Z) : manager :=
  mkManager (file_path m) (lock m) (cache m) t (cache_serialized m).
Definition with_cache_serialized (m : manager) (t : option pystr) : manager :=
  mkManager (file_path m) (lock m) (cache m) (cache_mtime m) t.

(** [_load_raw_data]: the dict comprehension keeps the entries whose value
    is a dict. *)
Definition keep_dict_entries (kvs : list (pystr * json)) : tasks :=
  fold_left (fun acc '(k, v) =>
               match v with JObj o => dset k o acc | _ => acc end) kvs [].

Definition load_raw_data (file_path : pystr) (fs : fsys) : outcome tasks :=
  if negb (path_exists file_path fs) then Ok []
  else match read_text file_path fs with
       | Raise e => Raise e
       | Ok text =>
           let contents := strip text in
           match contents with
           | [] => Ok []
           | _ =>
               match json_loads contents with
               | None => Ok []
               | Some (JObj kvs) => Ok (keep_dict_entries kvs)
               | Some _ => Ok []
               end
           end
       end.

Definition tasks_json (data : tasks) : json :=
  JObj (map (fun '(k, v) => (k, JObj v)) data).

(** [_serialize_data] *)
Definition serialize_data (data : tasks) : pystr := json_dumps (tasks_json data).

(** [_save_raw_data] ([_ensure_parent_directory] is not modelled:
    directories are not part of the file model). *)
Definition save_raw_data (file_path : pystr) (serialized : pystr)
  : ST fsys unit :=
  fun fs =>
    match with_suffix file_path (str_of ".tmp") with
    | Raise e => (Raise e, fs)
    | Ok temp_path =>
        (open_w temp_path ;;;
         write_text temp_path serialized ;;;
         os_replace temp_path file_path) fs
    end.

(** [_copy_dict_of_dicts] *)
Definition copy_dict (value : task) : task :=
  fold_left (fun inner '(k, v) => dset k v inner) value [].

Definition copy_dict_of_dicts (data : tasks) : tasks :=
  fold_left (fun cloned '(k, v) => dset k (copy_dict v) cloned) data [].

(** [storage_path] *)
Definition storage_path (m : manager) : pystr := file_path m.

(** [_acquire_lock] *)
Definition acquire_lock : ST store unit :=
  m <- get_mgr ;;
  f <- get_fs ;;
  if path_exists (lock m) f then ret tt else on_fs (touch (lock m)).

(** [_release_lock] *)
Definition release_lock : ST store unit :=
  m <- get_mgr ;;
  f <- get_fs ;;
  if path_exists (lock m) f then on_fs (unlink (lock m)) else ret tt.

(** [cached_mtime == current_mtime] *)
Definition mtime_eqb (a b : option Z) : bool :=
  match a, b with
  | Some x, Some y => Z.eqb x y
  | None, None => true
  | _, _ => false
  end.

(** [_load_all] *)
Definition load_all : ST store tasks :=
  m <- get_mgr ;;
  f <- get_fs ;;
  let fp := storage_path m in
  let cur := current_mtime fp f in
  let reload :=
    match load_raw_data fp f with
    | Raise e => throw e
    | Ok data =>
        let serialized := serialize_data data in
        set_mgr (mkManager (file_path m) (lock m) (Some (copy_dict_of_dicts data))
                           cur (Some serialized)) ;;;
        ret (copy_dict_of_dicts data)
    end in
  match cache m with
  | Some cached_data =>
      if mtime_eqb (cache_mtime m) cur
      then ret (copy_dict_of_dicts cached_data)
      else reload
  | None => reload
  end.

(** The loop of [_save_all] that compares [data] with the cached map. *)
Definition same_entries (data existing : tasks) : bool :=
  forallb (fun '(k, v) =>
             match dget k existing with
             | Some w => py_eq (JObj v) (JObj w)
             | None => false
             end) data.

(** Lines 134-138 of [_save_all]: write the file, then refresh the cache. *)
Definition save_all_write (data : tasks) : ST store unit :=
  m <- get_mgr ;;
  let fp := storage_path m in
  let serialized := serialize_data data in
  on_fs (save_raw_data fp serialized) ;;;
  m1 <- get_mgr ;;
  set_mgr (with_cache_serialized
             (with_cache m1 (Some (copy_dict_of_dicts data)))
             (Some serialized)) ;;;
  f <- get_fs ;;
  m2 <- get_mgr ;;
  if path_exists fp f
  then set_mgr (with_cache_mtime m2 (current_mtime fp f))
  else ret tt.

(** [_save_all] *)
Definition save_all (data : tasks) : ST store unit :=
  m <- get_mgr ;;
  let serialized := serialize_data data in
  let write := save_all_write data in
  let compare_with_cache :=
    match cache m with
    | Some existing =>
        if same_entries data existing
           && Nat.eqb (List.length existing) (List.length data)
        then set_mgr (with_cache_serialized
                        (with_cache m (Some (copy_dict_of_dicts data)))
                        (Some serialized))
        else write
    | None => write
    end in
  match cache_serialized m with
  | Some cs =>
      if pystr_eqb cs serialized
      then set_mgr (with_cache m (Some (copy_dict_of_dicts data)))
      else compare_with_cache
  | None => compare_with_cache
  end.

(** The message of [KeyError(f"Task '{task_id}' not found")]. *)
Definition not_found_msg (task_id : json) : pystr :=
  str_of "Task '" ++ py_str task_id ++ str_of "' not found".

(** [save_task] *)
Definition save_task (task : task) : ST store unit :=
  acquire_lock ;;;
  try_finally
    (tasks <- load_all ;;
     match dget (str_of "id") task with
     | None => throw (KeyError (str_of "id"))
     | Some id => save_all (dset (py_str id) task tasks)
     end)
    release_lock.

(** [get_task] *)
Definition get_task (task_id : json) : ST store task :=
  tasks <- load_all ;;
  match dget (py_str task_id) tasks with
  | None => throw (KeyError (not_found_msg task_id))
  | Some t => ret t
  end.

(** [delete_task] *)
Definition delete_task (task_id : json) : ST store unit :=
  acquire_lock ;;;
  try_finally
    (tasks <- load_all ;;
     let key := py_str task_id in
     if dmem key tasks then save_all (ddel key tasks)
     else throw (KeyError (not_found_msg task_id)))
    release_lock.

(** [task.get("created_at", "")] *)
Definition created_at (t : task) : json :=
  match dget (str_of "created_at") t with
  | Some v => v
  | None => JStr []
  end.

(** Python [<] on two sort keys; [None] is the [TypeError] of comparing
    values of unrelated types (containers are not compared in this model). *)
Definition key_lt (a b : json) : option bool :=
  let num v := match v with
               | JNum n => Some n
               | JBool x => Some (if x then 1 else 0)
               | _ => None
               end in
  match a, b with
  | JStr s, JStr t => Some (pystr_ltb s t)
  | _, _ =>
      match num a, num b with
      | Some x, Some y => Some (x <? y)
      | _, _ => None
      end
  end.

(** [list.sort(key=created_at)] as a stable insertion sort that compares
    with [<] only.  Any stable sort gives the same list when the keys are
    comparable; CPython's sort compares other pairs than this one, so where
    keys are incomparable the model raises [TypeError] only approximately. *)
Fixpoint insert_by_created_at (x : task) (l : list task)
  : option (list task) :=
  match l with
  | [] => Some [x]
  | y :: l' =>
      match key_lt (created_at x) (created_at y) with
      | None => None
      | Some true => Some (x :: y :: l')
      | Some false => option_map (cons y) (insert_by_created_at x l')
      end
  end.

Definition sort_by_created_at (l : list task) : option (list task) :=
  fold_left (fun acc x =>
               match acc with
               | Some sorted => insert_by_created_at x sorted
               | None => None
               end) l (Some []).

(** [entry.get("status") == status] *)
Definition status_is (status : pystr) (entry : task) : bool :=
  match dget (str_of "status") entry with
  | Some v => py_eq v (JStr status)
  | None => false
  end.

(** [list_tasks] *)
Definition list_tasks (status : option pystr) : ST store (list task) :=
  tasks <- load_all ;;
  let results := dvalues tasks in
  let results := match status with
                 | Some s => filter (status_is s) results
                 | None => results
                 end in
  match sort_by_created_at results with
  | Some sorted => ret sorted
  | None => throw (TypeError)
  end.

(** [create_storage] *)
Definition create_storage (file_path : pystr) : ST fsys manager :=
  fun fs =>
    let init :=
      if path_exists file_path fs then ret tt
      else open_w file_path ;;; write_text file_path (str_of "{}") in
    (init ;;;
     fun fs' =>
       match with_suffix file_path (str_of ".lock") with
       | Raise e => (Raise e, fs')
       | Ok lock_path => (Ok (mkManager file_path lock_path None None None), fs')
       end) fs.

(** *** The MCP client (mcp_client.py) *)

(** One line the child process writes, or no data before the read timeout. *)
Inductive line : Type :=
| Line (s : pystr)
| Stall.

Inductive signal : Type := SIGTERM | SIGKILL.

(** The child process behind a [subprocess.Popen] handle. *)
Record proc : Type := mkProc {
  p_alive : bool;             (** [poll() is None] *)
  terminate_raises : bool;    (** [terminate()] raises *)
  exit_delay : option Z;      (** time it takes to exit after [SIGTERM];
                                  [None]: it does not exit *)
  p_stdin : list pystr;       (** text written to its stdin *)
  p_stdout : list line        (** lines it writes; [[]] is end of stream *)
}.

(** What [popen_launch] does: a new process, or an [OSError]. *)
Inductive spawn : Type :=
| Spawned (p : proc)
| SpawnError (e : pystr).

(** The client dict; [signals] is not a key of it but the signals the
    client sent to its children, in order. *)
Record client : Type := mkClient {
  server_path : pystr;
  node_path : pystr;
  timeout : Z;
  process : option proc;
  active_contexts : Z;
  request_id_generator : option Z;   (** the generator's counter *)
  signals : list signal
}.

Definition with_process (c : client) (p : option proc) : client :=
  mkClient (server_path c) (node_path c) (timeout c) p (active_contexts c)
           (request_id_generator c) (signals c).
Definition with_active (c : client) (n : Z) : client :=
  mkClient (server_path c) (node_path c) (timeout c) (process c) n
           (request_id_generator c) (signals c).
Definition with_generator (c : client) (g : option Z) : client :=
  mkClient (server_path c) (node_path c) (timeout c) (process c)
           (active_contexts c) g (signals c).
Definition with_signal (c : client) (sg : signal) : client :=
  mkClient (server_path c) (node_path c) (timeout c) (process c)
           (active_contexts c) (request_id_generator c) (signals c ++ [sg]).

(** [_ensure_not_running] *)
Definition ensure_not_running : ST client unit :=
  fun c => match process c with
           | Some p =>
               if p_alive p
               then (Raise (RuntimeError (str_of "MCP client already running")), c)
               else (Ok tt, with_process c None)
           | None => (Ok tt, with_process c None)
           end.

(** [start_client], with the outcome of [popen_launch] as input. *)
Definition start_client (launch : spawn) : ST client bool :=
  ensure_not_running ;;;
  fun c => match launch with
           | SpawnError e =>
               (Raise (RuntimeError (str_of "Failed to start MCP server: " ++ e)), c)
           | Spawned p => (Ok true, with_process c (Some p))
           end.

(** [_wait_for_process]: [TimeoutExpired] is re-raised as [TimeoutError]. *)
Definition wait_for_process (p : proc) (t : Z) : outcome unit :=
  match exit_delay p with
  | Some d => if d <=? t then Ok tt else Raise TimeoutError
  | None => Raise TimeoutError
  end.

(** [stop_client] *)
Definition stop_client : ST client bool :=
  fun c =>
    match process c with
    | None => (Ok false, c)
    | Some p =>
        let t := timeout c in
        if terminate_raises p then (Ok true, with_process c None)
        else
          let c1 := with_signal c SIGTERM in
          match wait_for_process p t with
          | Raise TimeoutError => (Ok true, with_process c1 None)
          | Raise e => (Raise e, c1)
          | Ok _ => (Ok true, with_process c1 None)
          end
    end.

(** [_get_or_create_request_id_generator] followed by one call of the
    generator: the counter is incremented and printed. *)
Definition next_request_id : ST client pystr :=
  fun c =>
    let value := match request_id_generator c with Some v => v | None => 0 end in
    (Ok (str_of_nat (value + 1)), with_generator c (Some (value + 1))).

(** [build_json_rpc_request] *)
Definition build_json_rpc_request (method : pystr) (params : dict json)
  (request_id : pystr) : json :=
  JObj [(str_of "jsonrpc", JStr (str_of "2.0")); (str_of "id", JStr request_id);
        (str_of "method", JStr method); (str_of "params", JObj params)].

(** [send_json_rpc_request] *)
Definition send_json_rpc_request (request : json) : ST client unit :=
  fun c =>
    match process c with
    | None => (Raise (RuntimeError (str_of "MCP client process is not running")), c)
    | Some p =>
        let serialized := json_dumps request ++ [10] in
        (Ok tt, with_process c (Some (mkProc (p_alive p) (terminate_raises p)
                  (exit_delay p) (p_stdin p ++ [serialized]) (p_stdout p))))
    end.

Definition invalid_format : exn :=
  RuntimeError (str_of "Invalid JSON-RPC response format").

(** The [while True] loop of [read_json_rpc_response]; it returns the lines
    not consumed. *)
Fixpoint read_response_lines (lines : list line)
  : outcome (dict json) * list line :=
  match lines with
  | [] => (Raise (RuntimeError (str_of "No response received from MCP server")), [])
  | Stall :: _ => (Raise TimeoutError, lines)
  | Line [] :: _ =>
      (Raise (RuntimeError (str_of "No response received from MCP server")), lines)
  | Line l :: rest =>
      match strip l with
      | [] => read_response_lines rest
      | stripped =>
          match json_loads stripped with
          | Some (JObj response) => (Ok response, rest)
          | Some _ => (Raise invalid_format, rest)
          | None => (Raise invalid_format, rest)
          end
      end
  end.

(** [read_json_rpc_response] *)
Definition read_json_rpc_response : ST client (dict json) :=
  fun c =>
    match process c with
    | None => (Raise (RuntimeError (str_of "MCP client process is not running")), c)
    | Some p =>
        let (r, rest) := read_response_lines (p_stdout p) in
        (r, with_process c (Some (mkProc (p_alive p) (terminate_raises p)
                                   (exit_delay p) (p_stdin p) rest)))
    end.

Definition generic_error_msg : pystr := str_of "MCP server returned an error".
Definition missing_result_msg : pystr :=
  str_of "MCP server response missing result field".

(** The attributes a [logging.LogRecord] is made with ([taskName], added
    in Python 3.12, apart). *)
Definition logrecord_attributes : list pystr :=
  map str_of ["name"; "msg"; "args"; "levelname"; "levelno"; "pathname";
              "filename"; "module"; "exc_info"; "exc_text"; "stack_info";
              "lineno"; "funcName"; "created"; "msecs"; "relativeCreated";
              "thread"; "threadName"; "processName"; "process"]%string.

(** [LOGGER.error(msg, extra=...)] with the keys of [extra].  The package
    configures no logging, so its module loggers inherit the root level
    WARNING and an ERROR record is made; [Logger.makeRecord] refuses an
    [extra] key that is ["message"], ["asctime"] or a record attribute with
    [KeyError("Attempt to overwrite %r in LogRecord" % key)].  Otherwise the
    call has no effect the code observes. *)
Definition log_error (extra_keys : list pystr) : outcome unit :=
  match find (fun k => existsb (pystr_eqb k)
                         (str_of "message" :: str_of "asctime" :: logrecord_attributes))
             extra_keys with
  | Some k =>
      Raise (KeyError (str_of "Attempt to overwrite '" ++ k ++ str_of "' in LogRecord"))
  | None => Ok tt
  end.

(** Lines 223-240 of [invoke_tool]: what it does with the response read. *)
Definition handle_response (response : dict json) : outcome (dict json) :=
  match dget (str_of "error") response with
  | Some error =>
      let message :=
        match error with
        | JObj e =>
            match dget (str_of "message") e with
            | Some m => py_str m
            | None => generic_error_msg
            end
        | _ => generic_error_msg
        end in
      match log_error [str_of "message"] with
      | Raise e => Raise e
      | Ok _ => Raise (RuntimeError message)
      end
  | None =>
      match dget (str_of "result") response with
      | None | Some JNull => Raise (RuntimeError missing_result_msg)
      | Some (JObj result) => Ok (copy_dict result)
      | Some result => Ok [(str_of "value", result)]
      end
  end.

(** Lines 219-222 of [invoke_tool]: request, send, read. *)
Definition send_and_read (method : pystr) (params : dict json)
  : ST client (dict json) :=
  request_id <- next_request_id ;;
  send_json_rpc_request (build_json_rpc_request method params request_id) ;;;
  read_json_rpc_response.

(** [invoke_tool] *)
Definition invoke_tool (method : pystr) (params : dict json)
  : ST client (dict json) :=
  response <- send_and_read method params ;;
  fun c => (handle_response response, c).

(** [use_client]: the two flags of the context object. *)
Record ctx : Type := mkCtx { entered : bool; started : bool }.

Definition on_client {A} (m : ST client A) : ST (ctx * client) A :=
  fun '(x, c) => let (r, c') := m c in (r, (x, c')).

(** [__enter__] *)
Definition ctx_enter (launch : spawn) : ST (ctx * client) client :=
  fun '(x, c) =>
    if entered x
    then (Raise (RuntimeError (str_of "Client context already in use")), (x, c))
    else
      let active := active_contexts c in
      if 0 <? active
      then (Raise (RuntimeError (str_of "Client context already active")), (x, c))
      else
        let x1 := mkCtx true (started x) in
        let c1 := with_active c (active + 1) in
        match start_client launch c1 with
        | (Raise e, c2) => (Raise e, (x1, c2))
        | (Ok _, c2) => (Ok c2, (mkCtx true true, c2))
        end.

(** [__exit__]; it returns [False] whatever the exception, so an exception
    of the body propagates. *)
Definition ctx_exit (exc : option exn) : ST (ctx * client) bool :=
  fun '(x, c) =>
    let '(x1, c1) :=
      if started x
      then let (_, c') := stop_client c in (mkCtx (entered x) false, c')
      else (x, c) in
    (Ok false, (mkCtx false (started x1), with_active c1 0)).

(** [with use_client(client): body]: [__exit__] runs after the body
    whether it returns or raises, and the body's exception propagates. *)
Definition with_session {A} (launch : spawn) (body : ST client A)
  : ST (ctx * client) A :=
  _ <- ctx_enter launch ;;
  fun s =>
    let (r, s1) := on_client body s in
    let exc := match r with Ok _ => None | Raise e => Some e end in
    let (_, s2) := ctx_exit exc s1 in
    (r, s2).

(** A fresh context object, as [use_client] creates it. *)
Definition use_client : ctx := mkCtx false false.

(** ** The MCP responses handled by job_manager.py *)




(** ** Properties the claims speak of *)

(** The record's [status] field is the string [status]. *)
Definition status_field_eqb (status : pystr) (t : task) : bool :=
  match dget (str_of "status") t with
  | Some (JStr s) => pystr_eqb s status
  | _ => false
  end.

(** [a] comes no later than [b] by [created_at], both being strings compared
    lexicographically. *)
Definition created_le (a b : task) : Prop :=
  exists x y, created_at a = JStr x /\ created_at b = JStr y
              /\ pystr_ltb y x = false.

Definition created_at_is_string (t : task) : Prop :=
  exists s, created_at t = JStr s.

(** Storage paths and file contents used below. *)
Definition tasks_lock_path : pystr := str_of "tasks.lock".
Definition tasks_tmp_path : pystr := str_of "tasks.tmp".
Definition tasks_json_path : pystr := str_of "tasks.json".

(** The text [{"t1": {}}] and its UTF-8 bytes. *)
Definition one_task_text : pystr := [123; 34; 116; 49; 34; 58; 32; 123; 125; 125].
Definition one_task_bytes : list byte :=
  [x7b; x22; x74; x31; x22; x3a; x20; x7b; x7d; x7d].

(** Inputs of the examples: a parser that always returns [v], a serializer
    and a [str] that always return [s]. *)
Definition loads_const (v : json) : pystr -> option json := fun _ => Some v.
Definition dumps_const (s : pystr) : json -> pystr := fun _ => s.

(** A running server process that answers with one line. *)
Definition answering_proc : proc :=
  mkProc true false (Some 0) [] [Line (str_of "{}")].
Definition running_client : client :=
  mkClient [] [] 30 (Some answering_proc) 0 None [].
Definition idle_client : client := mkClient [] [] 30 None 0 None [].

Definition error_response : dict json :=
  [(str_of "error", JObj [(str_of "message", JStr (str_of "X"))])].
Definition null_result_response : dict json := [(str_of "result", JNull)].

(** A fresh store over "tasks.json" holding [{}], and the map a parser
    returns for it in the listing example. *)
Definition json_store : store :=
  mkStore (mkFs [(tasks_json_path, mkFile [x7b; x7d] 0)] 0)
          (mkManager tasks_json_path (str_of "tasks.lock") None None None).
Definition two_tasks_json : json :=
  JObj [(str_of "a", JObj [(str_of "created_at", JStr (str_of "2024-02"));
                           (str_of "status", JStr (str_of "done"))]);
        (str_of "b", JObj [(str_of "created_at", JStr (str_of "2024-01"));
                           (str_of "status", JStr (str_of "done"))]);
        (str_of "c", JObj [(str_of "created_at", JStr (str_of "2023-12"));
                           (str_of "status", JStr (str_of "new"))])].

(** A client with no process and no session, a server that writes two
    blank lines before its answer, and a record with an id. *)
Definition sample_client : client :=
  mkClient (str_of "server.js") (str_of "node") 5 None 0 None [].
Definition blank_lines_proc : proc :=
  mkProc true false (Some 0) [] [Line [10]; Line [32; 10]; Line (str_of "{}")].
Definition t1_task : task := [(str_of "id", JStr (str_of "t1"))].

(** ** Lemmas on strings and dicts *)

Lemma pystr_eqb_eq (s t : pystr) : pystr_eqb s t = true <-> s = t.
Proof.
  revert t; induction s as [|c s IH]; intros [|d t]; simpl;
    split; intro H; try discriminate; auto.
  - apply andb_prop in H as [H1 H2]. apply Z.eqb_eq in H1.
    apply IH in H2. subst; reflexivity.
  - injection H as -> ->. rewrite Z.eqb_refl. simpl. apply IH. reflexivity.
Qed.

Lemma pystr_eqb_refl (s : pystr) : pystr_eqb s s = true.
Proof. apply pystr_eqb_eq. reflexivity. Qed.

Lemma pystr_eqb_neq (s t : pystr) : s <> t -> pystr_eqb s t = false.
Proof.
  intro H. destruct (pystr_eqb s t) eqn:E; auto.
  apply pystr_eqb_eq in E. contradiction.
Qed.

Lemma dget_app {A} (k : pystr) (l1 l2 : dict A) :
  dget k (l1 ++ l2) = match dget k l1 with Some v => Some v | None => dget k l2 end.
Proof.
  induction l1 as [|[k' v'] l1 IH]; simpl; auto.
  destruct (pystr_eqb k k'); auto.
Qed.

Lemma dget_none_notin {A} (k : pystr) (d : dict A) :
  dget k d = None <-> ~ In k (map fst d).
Proof.
  induction d as [|[k' v'] d IH]; simpl.
  - split; [intros _ H; exact H|reflexivity].
  - destruct (pystr_eqb k k') eqn:E.
    + apply pystr_eqb_eq in E. subst. split; [discriminate|].
      intro H. exfalso. apply H. left. reflexivity.
    + rewrite IH. split; intros H.
      * intros [H1|H1]; [subst; rewrite pystr_eqb_refl in E; discriminate|].
        exact (H H1).
      * intro H1. apply H. right. exact H1.
Qed.

Lemma dset_absent {A} (k : pystr) (v : A) (d : dict A) :
  dget k d = None -> dset k v d = d ++ [(k, v)].
Proof.
  induction d as [|[k' v'] d IH]; simpl; auto.
  destruct (pystr_eqb k k'); [discriminate|].
  intro H. rewrite (IH H). reflexivity.
Qed.

(** Assigning the entries of a dict one by one into a dict that has none of
    its keys appends them. *)
Lemma fold_dset_app {A B} (f : A -> B) (l : dict A) (acc : dict B) :
  NoDup (map fst l) ->
  (forall k, In k (map fst l) -> dget k acc = None) ->
  fold_left (fun acc '(k, v) => dset k (f v) acc) l acc
  = acc ++ map (fun '(k, v) => (k, f v)) l.
Proof.
  revert acc; induction l as [|[k v] l IH]; intros acc Hnd Hacc; simpl.
  - rewrite app_nil_r. reflexivity.
  - inversion Hnd as [|? ? Hnotin Hnd']; subst.
    rewrite dset_absent by (apply Hacc; simpl; auto).
    rewrite IH; auto.
    + rewrite <- app_assoc. reflexivity.
    + intros k' Hk'. rewrite dget_app. rewrite (Hacc k') by (simpl; auto).
      simpl. destruct (pystr_eqb k' k) eqn:E; auto.
      apply pystr_eqb_eq in E. subst. contradiction.
Qed.

Lemma copy_dict_nodup (o : dict json) :
  NoDup (map fst o) -> copy_dict o = o.
Proof.
  intro H. unfold copy_dict.
  rewrite (fold_dset_app (fun v => v) o []); auto.
  simpl. induction o as [|[k v] o IH]; simpl; auto.
  inversion H; subst. rewrite IH; auto.
Qed.

Lemma dset_nodup {A} (k : pystr) (v : A) (d : dict A) :
  NoDup (map fst d) -> NoDup (map fst (dset k v d)).
Proof.
  induction d as [|[k' v'] d IH]; simpl; intro H.
  - constructor; [simpl; intro H0; exact H0|constructor].
  - inversion H as [|? ? Hn Hd]; subst.
    destruct (pystr_eqb k k') eqn:E; simpl; [constructor; auto|].
    constructor; auto.
    assert (Hk : map fst (dset k v d) = map fst d \/ map fst (dset k v d) = map fst d ++ [k]).
    { clear IH Hn Hd H. induction d as [|[k2 v2] d IH2]; simpl; auto.
      destruct (pystr_eqb k k2) eqn:E2; simpl; auto.
      destruct IH2 as [H2|H2]; rewrite H2; auto. }
    destruct Hk as [Hk|Hk]; rewrite Hk; auto.
    rewrite in_app_iff. simpl. intros [H1|[H1|H1]]; auto.
    subst. rewrite pystr_eqb_refl in E. discriminate.
Qed.

Lemma fold_dset_nodup {A B} (f : A -> B) (l : dict A) (acc : dict B) :
  NoDup (map fst acc) ->
  NoDup (map fst (fold_left (fun acc '(k, v) => dset k (f v) acc) l acc)).
Proof.
  revert acc; induction l as [|[k v] l IH]; intros acc H; simpl; auto.
  apply IH. apply dset_nodup. exact H.
Qed.

Lemma copy_dict_nodup_keys (o : dict json) : NoDup (map fst (copy_dict o)).
Proof.
  unfold copy_dict.
  apply (fold_dset_nodup (fun v : json => v) o []). constructor.
Qed.

(** ** The response handling of [invoke_tool] *)

(** C1 (code bug).  For the response object [invoke_tool] reads, an
    [error] field never yields the documented [RuntimeError]: the
    [LOGGER.error(..., extra={"message": message})] before the [raise]
    raises [KeyError("Attempt to overwrite 'message' in LogRecord")],
    whatever the error holds.  Without [error], an absent or [null]
    [result] raises the missing-result [RuntimeError]; a dict [result] is
    returned unchanged; any other result is returned as
    [{"value": result}]. *)
Theorem invoke_tool_error_response_keyerror (method : pystr) (params : dict json)
  (c c' : client) (response : dict json) :
  send_and_read method params c = (Ok response, c') ->
  (forall error, dget (str_of "error") response = Some error ->
     invoke_tool method params c
     = (Raise (KeyError (str_of "Attempt to overwrite 'message' in LogRecord")), c'))
  /\ (dget (str_of "error") response = None ->
     (dget (str_of "result") response = None
      \/ dget (str_of "result") response = Some JNull) ->
     invoke_tool method params c = (Raise (RuntimeError missing_result_msg), c'))
  /\ (forall o, dget (str_of "error") response = None ->
     dget (str_of "result") response = Some (JObj o) ->
     NoDup (map fst o) ->
     invoke_tool method params c = (Ok o, c'))
  /\ (forall v, dget (str_of "error") response = None ->
     dget (str_of "result") response = Some v ->
     v <> JNull -> (forall o, v <> JObj o) ->
     invoke_tool method params c = (Ok [(str_of "value", v)], c')).
Proof.
  intro Hread. unfold invoke_tool, bind. rewrite Hread. unfold handle_response.
  repeat split.
  - intros error He. rewrite He. reflexivity.
  - intros He [Hr|Hr]; rewrite He, Hr; reflexivity.
  - intros o He Hr Hnd. rewrite He, Hr, copy_dict_nodup by exact Hnd.
    reflexivity.
  - intros v He Hr Hnull Hobj. rewrite He, Hr.
    destruct v; try reflexivity; [contradiction|].
    exfalso. exact (Hobj kvs eq_refl).
Qed.

(** C10.  A response without [error] whose [result] is present but [null]
    makes [invoke_tool] raise the missing-result [RuntimeError]. *)
Theorem invoke_tool_null_result (method : pystr) (params : dict json)
  (c c' : client) (response : dict json) :
  send_and_read method params c = (Ok response, c') ->
  dget (str_of "error") response = None ->
  dget (str_of "result") response = Some JNull ->
  invoke_tool method params c = (Raise (RuntimeError missing_result_msg), c').
Proof.
  intros Hread He Hr. unfold invoke_tool, bind. rewrite Hread.
  unfold handle_response. rewrite He, Hr. reflexivity.
Qed.

(** ** Stopping the server process *)

(** C8.  [stop_client] returns [True] and clears the process handle when
    [terminate()] raises, and when the wait runs past the timeout, in which
    case the only signal sent is [SIGTERM]; with no process it returns
    [False] and changes nothing. *)
Theorem stop_client_lenient (c : client) :
  (process c = None -> stop_client c = (Ok false, c))
  /\ (forall p, process c = Some p -> terminate_raises p = true ->
      stop_client c = (Ok true, with_process c None))
  /\ (forall p, process c = Some p -> terminate_raises p = false ->
      wait_for_process p (timeout c) = Raise TimeoutError ->
      stop_client c = (Ok true, with_process (with_signal c SIGTERM) None)).
Proof.
  unfold stop_client. repeat split.
  - intro H. rewrite H. reflexivity.
  - intros p Hp Ht. rewrite Hp, Ht. reflexivity.
  - intros p Hp Ht Hw. rewrite Hp, Ht, Hw. reflexivity.
Qed.

Lemma stop_client_clears (c : client) : process (snd (stop_client c)) = None.
Proof.
  unfold stop_client. destruct (process c) as [p|] eqn:Hp; simpl; auto.
  destruct (terminate_raises p); simpl; auto.
  unfold wait_for_process. destruct (exit_delay p) as [d|]; simpl; auto.
  destruct (d <=? timeout c); reflexivity.
Qed.

Lemma ctx_enter_ok (launch : spawn) (x : ctx) (c c1 : client) (x1 : ctx) :
  ctx_enter launch (x, c) = (Ok c1, (x1, c1)) ->
  exists p, launch = Spawned p /\ entered x = false /\ active_contexts c <= 0
    /\ x1 = mkCtx true true
    /\ c1 = with_process (with_active c (active_contexts c + 1)) (Some p).
Proof.
  unfold ctx_enter. destruct (entered x) eqn:He; [discriminate|].
  destruct (0 <? active_contexts c) eqn:Ha; [discriminate|].
  apply Z.ltb_ge in Ha.
  unfold start_client, bind, ensure_not_running. simpl.
  destruct (process c) as [p0|] eqn:Hp; simpl.
  - destruct (p_alive p0); [discriminate|].
    destruct launch as [p|e]; [|discriminate].
    intro H. injection H as <- <-. exists p. repeat split; auto.
  - destruct launch as [p|e]; [|discriminate].
    intro H. injection H as <- <-. exists p. repeat split; auto.
Qed.

(** C7.  The session wrapper admits one session at a time: entering while a
    context is entered or the client has an active session raises
    [RuntimeError] and changes nothing; a successful entry has started the
    launched process and marks the session active (the session count of a
    client is never negative: [_validate_config] sets it to 0 and only
    [__enter__] and [__exit__] write it); whatever the body does
    and however it ends, leaving the session stops the client's process
    with [stop_client], clears the handle and the session count, and a new
    session can be entered again. *)
Theorem use_client_one_session (launch : spawn) (x : ctx) (c : client)
  (Hcount : 0 <= active_contexts c) :
  ((entered x = true \/ 0 < active_contexts c) ->
     exists e, ctx_enter launch (x, c) = (Raise (RuntimeError e), (x, c)))
  /\ (forall c1 x1, ctx_enter launch (x, c) = (Ok c1, (x1, c1)) ->
      exists p, launch = Spawned p /\ process c1 = Some p
        /\ 0 < active_contexts c1 /\ entered x1 = true)
  /\ (forall A (body : ST client A) c1 x1 r cb,
      ctx_enter launch (x, c) = (Ok c1, (x1, c1)) ->
      body c1 = (r, cb) ->
      let c2 := with_active (snd (stop_client cb)) 0 in
      with_session launch body (x, c) = (r, (mkCtx false false, c2))
      /\ process c2 = None /\ active_contexts c2 = 0
      /\ (forall p' x', entered x' = false ->
          exists c3, ctx_enter (Spawned p') (x', c2)
                     = (Ok c3, (mkCtx true true, c3)))).
Proof.
  split; [|split].
  - intros H. unfold ctx_enter.
    destruct (entered x) eqn:He; [eexists; reflexivity|].
    destruct H as [H|H]; [discriminate|].
    apply Z.ltb_lt in H. rewrite H. eexists; reflexivity.
  - intros c1 x1 H. apply ctx_enter_ok in H as (p & -> & He & Ha & -> & ->).
    exists p. simpl. repeat split; auto. lia.
  - intros A body c1 x1 r cb Henter Hbody c2.
    pose proof (ctx_enter_ok _ _ _ _ _ Henter) as (p & Hl & He & Ha & Hx1 & Hc1).
    assert (Hproc : process c2 = None).
    { unfold c2. simpl. apply stop_client_clears. }
    split; [|split; [exact Hproc|split; [reflexivity|]]].
    + unfold with_session, bind. rewrite Henter. subst x1.
      unfold on_client. rewrite Hbody. simpl.
      destruct (stop_client cb) as [o c'] eqn:Hs. reflexivity.
    + intros p' x' Hx'. unfold ctx_enter. rewrite Hx'. simpl.
      unfold start_client, bind, ensure_not_running. simpl.
      unfold c2 in Hproc. simpl in Hproc. rewrite Hproc.
      eexists. reflexivity.
Qed.

(** ** The repository check of [create_task] *)

Lemma contains_char_in (ch : Z) (s : pystr) : contains_char ch s = true <-> In ch s.
Proof.
  unfold contains_char. rewrite existsb_exists. split.
  - intros (y & Hy & E). apply Z.eqb_eq in E. subst. exact Hy.
  - intro H. exists ch. split; auto. apply Z.eqb_refl.
Qed.

(** ** Listing tasks *)

Lemma pystr_ltb_asym (a b : pystr) : pystr_ltb a b = true -> pystr_ltb b a = false.
Proof.
  revert b; induction a as [|c a IH]; intros [|d b]; simpl; auto; try discriminate.
  intro H. apply orb_prop in H as [H|H].
  - apply Z.ltb_lt in H. apply orb_false_iff. split.
    + apply Z.ltb_ge. lia.
    + apply andb_false_iff. left. apply Z.eqb_neq. lia.
  - apply andb_prop in H as [H1 H2]. apply Z.eqb_eq in H1. subst.
    rewrite Z.ltb_irrefl, Z.eqb_refl. simpl. apply IH. exact H2.
Qed.

Lemma status_is_field (s : pystr) (t : task) : status_is s t = status_field_eqb s t.
Proof.
  unfold status_is, status_field_eqb.
  destruct (dget (str_of "status") t) as [v|]; auto. destruct v; reflexivity.
Qed.

Lemma insert_by_created_at_ok (x : task) (l : list task) :
  created_at_is_string x -> Forall created_at_is_string l ->
  exists l', insert_by_created_at x l = Some l' /\ Permutation l' (x :: l)
    /\ (Sorted created_le l -> Sorted created_le l')
    /\ (forall z, HdRel created_le z l -> created_le z x -> HdRel created_le z l').
Proof.
  intros [kx Hx]. induction l as [|y l IH]; intros Hl.
  - exists [x]. split; [reflexivity|]. split; [reflexivity|].
    split; [intros _; constructor; constructor|].
    intros z _ Hz. constructor. exact Hz.
  - inversion Hl as [|? ? [ky Hy] Hl']; subst.
    simpl. rewrite Hx, Hy. simpl.
    destruct (pystr_ltb kx ky) eqn:Hlt.
    + exists (x :: y :: l). split; [reflexivity|]. split; [reflexivity|].
      split.
      * intro Hs. constructor; auto. constructor.
        exists kx, ky. split; [exact Hx|]. split; [exact Hy|].
        apply pystr_ltb_asym. exact Hlt.
      * intros z _ Hz. constructor. exact Hz.
    + destruct (IH Hl') as (l' & Hi & Hp & Hs & Hh).
      rewrite Hi. simpl. exists (y :: l'). split; [reflexivity|]. split.
      * rewrite Hp. apply perm_swap.
      * split.
        -- intro Hsl. inversion Hsl as [|? ? Hsl' Hhd]; subst. constructor.
           ++ apply Hs. exact Hsl'.
           ++ apply Hh; auto. exists ky, kx. split; [exact Hy|].
              split; [exact Hx|exact Hlt].
        -- intros z Hz _. inversion Hz; subst. constructor. assumption.
Qed.

Lemma sort_by_created_at_ok (l acc : list task) :
  Forall created_at_is_string l -> Forall created_at_is_string acc ->
  Sorted created_le acc ->
  exists l', fold_left (fun acc x =>
                          match acc with
                          | Some sorted => insert_by_created_at x sorted
                          | None => None
                          end) l (Some acc) = Some l'
    /\ Permutation l' (acc ++ l) /\ Sorted created_le l'.
Proof.
  revert acc; induction l as [|x l IH]; intros acc Hl Hacc Hs; simpl.
  - exists acc. rewrite app_nil_r. auto.
  - inversion Hl as [|? ? Hx Hl']; subst.
    destruct (insert_by_created_at_ok x acc Hx Hacc) as (a' & Hi & Hp & Hs' & _).
    rewrite Hi.
    assert (Ha' : Forall created_at_is_string a').
    { apply (Permutation_Forall (Permutation_sym Hp)). constructor; auto. }
    destruct (IH a' Hl' Ha' (Hs' Hs)) as (l' & Hf & Hp' & Hs'').
    exists l'. repeat split; auto.
    rewrite Hp', Hp. simpl. apply Permutation_middle.
Qed.

(** C3.  Over the map the store loads, [list_tasks] returns exactly the
    records whose [status] field is the filter (all of them without a
    filter), ordered by ascending [created_at] compared lexicographically
    as strings ([""] when absent).  The timestamps are assumed to be strings,
    as the store writes them. *)
Theorem list_tasks_filter_sorted (status : option pystr) (st st1 : store)
  (d : tasks) :
  load_all st = (Ok d, st1) ->
  (forall t, In t (dvalues d) -> created_at_is_string t) ->
  exists l, list_tasks status st = (Ok l, st1)
    /\ Permutation l (match status with
                      | Some s => filter (status_field_eqb s) (dvalues d)
                      | None => dvalues d
                      end)
    /\ Sorted created_le l.
Proof.
  intros Hload Hstr. unfold list_tasks, bind. rewrite Hload.
  set (sel := match status with
              | Some s => filter (status_field_eqb s) (dvalues d)
              | None => dvalues d
              end).
  assert (Hsel : match status with
                 | Some s => filter (status_is s) (dvalues d)
                 | None => dvalues d
                 end = sel).
  { unfold sel. destruct status as [s|]; auto.
    apply filter_ext. intro t. apply status_is_field. }
  rewrite Hsel.
  assert (Hf : Forall created_at_is_string sel).
  { apply Forall_forall. intros t Ht. apply Hstr. unfold sel in Ht.
    destruct status; auto. apply filter_In in Ht. tauto. }
  destruct (sort_by_created_at_ok sel [] Hf (Forall_nil _) (Sorted_nil _))
    as (l & Hs & Hp & Hsort).
  unfold sort_by_created_at. rewrite Hs. exists l. repeat split; auto.
Qed.

(** ** Frame lemmas of the store operations *)

Lemma dget_dset_same {A} (k : pystr) (v : A) (d : dict A) :
  dget k (dset k v d) = Some v.
Proof.
  induction d as [|[k' v'] d IH]; simpl.
  - rewrite pystr_eqb_refl. reflexivity.
  - destruct (pystr_eqb k k') eqn:E; simpl.
    + rewrite E. reflexivity.
    + rewrite E. exact IH.
Qed.

Lemma dget_dset_other {A} (k k' : pystr) (v : A) (d : dict A) :
  k <> k' -> dget k' (dset k v d) = dget k' d.
Proof.
  intro Hne. induction d as [|[k2 v2] d IH]; simpl.
  - rewrite pystr_eqb_neq; auto.
  - destruct (pystr_eqb k k2) eqn:E; simpl.
    + apply pystr_eqb_eq in E. subst. rewrite pystr_eqb_neq; auto.
    + rewrite IH. reflexivity.
Qed.

Lemma dget_ddel_other {A} (k k' : pystr) (d : dict A) :
  k <> k' -> dget k' (ddel k d) = dget k' d.
Proof.
  intro Hne. induction d as [|[k2 v2] d IH]; simpl; auto.
  destruct (pystr_eqb k k2) eqn:E; simpl.
  - apply pystr_eqb_eq in E. subst. rewrite (pystr_eqb_neq k' k2); auto.
  - rewrite IH. reflexivity.
Qed.

Lemma dget_ddel_same {A} (k : pystr) (d : dict A) :
  NoDup (map fst d) -> dget k (ddel k d) = None.
Proof.
  induction d as [|[k2 v2] d IH]; simpl; auto. intro H.
  inversion H as [|? ? Hn Hd]; subst.
  destruct (pystr_eqb k k2) eqn:E; simpl.
  - apply pystr_eqb_eq in E. subst. apply dget_none_notin. exact Hn.
  - rewrite E. apply IH. exact Hd.
Qed.

Lemma mtime_eqb_eq (a b : option Z) : mtime_eqb a b = true -> a = b.
Proof.
  destruct a, b; simpl; try discriminate; auto.
  intro H. apply Z.eqb_eq in H. subst. reflexivity.
Qed.

Lemma dset_forall_values {A} (P : A -> Prop) (k : pystr) (v : A) (d : dict A) :
  Forall (fun kv => P (snd kv)) d -> P v -> Forall (fun kv => P (snd kv)) (dset k v d).
Proof.
  induction d as [|[k' v'] d IH]; simpl; intros Hd Hv.
  - constructor; auto.
  - inversion Hd; subst. destruct (pystr_eqb k k'); constructor; auto.
Qed.

Lemma fold_dset_values {A B} (f : A -> B) (P : B -> Prop) (l : dict A)
  (acc : dict B) :
  (forall x, P (f x)) -> Forall (fun kv => P (snd kv)) acc ->
  Forall (fun kv => P (snd kv))
         (fold_left (fun acc '(k, v) => dset k (f v) acc) l acc).
Proof.
  revert acc; induction l as [|[k v] l IH]; intros acc Hf Hacc; simpl; auto.
  apply IH; auto. apply dset_forall_values; auto.
Qed.

Lemma copy_dict_of_dicts_idem (x : tasks) :
  copy_dict_of_dicts (copy_dict_of_dicts x) = copy_dict_of_dicts x.
Proof.
  assert (Hnd : NoDup (map fst (copy_dict_of_dicts x))).
  { unfold copy_dict_of_dicts. apply (fold_dset_nodup copy_dict). constructor. }
  assert (Hv : Forall (fun kv => NoDup (map fst (snd kv))) (copy_dict_of_dicts x)).
  { unfold copy_dict_of_dicts.
    apply (fold_dset_values copy_dict (fun v => NoDup (map fst v))).
    - apply copy_dict_nodup_keys.
    - constructor. }
  set (y := copy_dict_of_dicts x) in *.
  unfold copy_dict_of_dicts at 1.
  rewrite (fold_dset_app copy_dict y []); auto. simpl.
  clear Hnd. induction y as [|[k v] y IH]; simpl; auto.
  inversion Hv; subst. rewrite copy_dict_nodup by assumption.
  rewrite IH; auto.
Qed.

Lemma load_all_ok (st st' : store) (d : tasks) :
  load_all st = (Ok d, st') ->
  fs st' = fs st /\ file_path (mgr st') = file_path (mgr st)
  /\ lock (mgr st') = lock (mgr st)
  /\ cache_mtime (mgr st') = current_mtime (file_path (mgr st)) (fs st)
  /\ exists c, cache (mgr st') = Some c /\ d = copy_dict_of_dicts c.
Proof.
  unfold load_all, bind, get_mgr, get_fs. simpl.
  destruct (cache (mgr st)) as [c|] eqn:Hc.
  - destruct (mtime_eqb (cache_mtime (mgr st))
                (current_mtime (storage_path (mgr st)) (fs st))) eqn:He.
    + intro H. injection H as <- <-. apply mtime_eqb_eq in He.
      repeat split; auto. exists c. auto.
    + destruct (load_raw_data (storage_path (mgr st)) (fs st)) as [data|e];
        simpl; [|discriminate].
      intro H. injection H as <- <-. simpl. repeat split; auto.
      eexists. split; [reflexivity|]. symmetry. apply copy_dict_of_dicts_idem.
  - destruct (load_raw_data (storage_path (mgr st)) (fs st)) as [data|e];
      simpl; [|discriminate].
    intro H. injection H as <- <-. simpl. repeat split; auto.
    eexists. split; [reflexivity|]. symmetry. apply copy_dict_of_dicts_idem.
Qed.

Lemma load_all_err (st st' : store) (e : exn) :
  load_all st = (Raise e, st') -> st' = st.
Proof.
  unfold load_all, bind, get_mgr, get_fs. simpl.
  destruct (cache (mgr st)) as [c|] eqn:Hc.
  - destruct (mtime_eqb (cache_mtime (mgr st))
                (current_mtime (storage_path (mgr st)) (fs st))); [discriminate|].
    destruct (load_raw_data (storage_path (mgr st)) (fs st)); simpl;
      [discriminate|]. intro H. injection H as _ <-. reflexivity.
  - destruct (load_raw_data (storage_path (mgr st)) (fs st)); simpl;
      [discriminate|]. intro H. injection H as _ <-. reflexivity.
Qed.

Lemma save_raw_data_ok (fp temp s : pystr) (bs : list byte) (f : fsys) :
  with_suffix fp (str_of ".tmp") = Ok temp -> utf8_encode s = Some bs ->
  exists f', save_raw_data fp s f = (Ok tt, f')
    /\ dget fp (files f') = Some (mkFile bs (clock f)) /\ clock f' = clock f
    /\ (forall q, q <> fp -> q <> temp -> dget q (files f') = dget q (files f)).
Proof.
  intros Hw He. unfold save_raw_data. rewrite Hw.
  unfold bind, open_w, write_text, os_replace. simpl. rewrite He. simpl.
  rewrite dget_dset_same.
  destruct (pystr_eqb temp fp) eqn:E.
  - apply pystr_eqb_eq in E. subst temp.
    eexists. split; [reflexivity|]. simpl.
    split; [apply dget_dset_same|]. split; [reflexivity|].
    intros q Hq _. rewrite !dget_dset_other; auto.
  - eexists. split; [reflexivity|]. simpl.
    split; [apply dget_dset_same|]. split; [reflexivity|].
    intros q Hq Ht. rewrite dget_dset_other by auto.
    rewrite dget_ddel_other by auto. rewrite !dget_dset_other; auto.
Qed.

Lemma save_all_write_cases (d : tasks) (st st' : store) (r : outcome unit) :
  save_all_write d st = (r, st') ->
  exists r0, save_raw_data (file_path (mgr st)) (serialize_data d) (fs st)
             = (r0, fs st')
  /\ ((r0 = Ok tt /\ r = Ok tt
       /\ file_path (mgr st') = file_path (mgr st) /\ lock (mgr st') = lock (mgr st)
       /\ cache (mgr st') = Some (copy_dict_of_dicts d)
       /\ cache_mtime (mgr st')
          = (if path_exists (file_path (mgr st)) (fs st')
             then current_mtime (file_path (mgr st)) (fs st')
             else cache_mtime (mgr st)))
      \/ (exists e, r0 = Raise e /\ r = Raise e /\ mgr st' = mgr st)).
Proof.
  unfold save_all_write, bind, get_mgr, get_fs, on_fs, set_mgr, ret. simpl.
  destruct (save_raw_data (storage_path (mgr st)) (serialize_data d) (fs st))
    as [[u|e] f1] eqn:Hs; simpl.
  - destruct u. destruct (path_exists (storage_path (mgr st)) f1) eqn:Hp; simpl;
      intro H; injection H as <- <-; simpl; exists (Ok tt);
      (split; [exact Hs|]); left; unfold storage_path in Hp; rewrite Hp;
      repeat split; reflexivity.
  - intro H. injection H as <- <-. simpl. exists (Raise e). split; [exact Hs|].
    right. exists e. auto.
Qed.

Lemma save_all_cases (d : tasks) (st st' : store) (r : outcome unit) :
  save_all d st = (r, st') ->
  (r = Ok tt /\ fs st' = fs st
   /\ file_path (mgr st') = file_path (mgr st) /\ lock (mgr st') = lock (mgr st)
   /\ cache_mtime (mgr st') = cache_mtime (mgr st)
   /\ cache (mgr st') = Some (copy_dict_of_dicts d))
  \/ save_all_write d st = (r, st').
Proof.
  unfold save_all, bind, get_mgr. simpl.
  destruct (cache_serialized (mgr st)) as [cs|].
  - destruct (pystr_eqb cs (serialize_data d)).
    + unfold set_mgr. intro H. injection H as <- <-. left. simpl. auto 10.
    + destruct (cache (mgr st)) as [ex|]; [|intro H; right; exact H].
      destruct (same_entries d ex && Nat.eqb (List.length ex) (List.length d));
        [|intro H; right; exact H].
      unfold set_mgr. intro H. injection H as <- <-. left. simpl. auto 10.
  - destruct (cache (mgr st)) as [ex|]; [|intro H; right; exact H].
    destruct (same_entries d ex && Nat.eqb (List.length ex) (List.length d));
      [|intro H; right; exact H].
    unfold set_mgr. intro H. injection H as <- <-. left. simpl. auto 10.
Qed.

Lemma ddel_keys_incl {A} (k : pystr) (d : dict A) :
  incl (map fst (ddel k d)) (map fst d).
Proof.
  induction d as [|[k2 v2] d IH]; simpl; [apply incl_refl|].
  destruct (pystr_eqb k k2); simpl.
  - intros x Hx. right. exact Hx.
  - apply incl_cons; [left; reflexivity|]. intros x Hx. right. apply IH. exact Hx.
Qed.

Lemma ddel_nodup {A} (k : pystr) (d : dict A) :
  NoDup (map fst d) -> NoDup (map fst (ddel k d)).
Proof.
  induction d as [|[k2 v2] d IH]; simpl; intro H; auto.
  inversion H as [|? ? Hn Hd]; subst.
  destruct (pystr_eqb k k2); simpl; auto.
  constructor; auto. intro Hin. apply Hn. apply (ddel_keys_incl k d). exact Hin.
Qed.

Lemma save_raw_data_nodup (fp s : pystr) (f f' : fsys) (r : outcome unit) :
  NoDup (map fst (files f)) -> save_raw_data fp s f = (r, f') ->
  NoDup (map fst (files f')).
Proof.
  intros Hnd. unfold save_raw_data.
  destruct (with_suffix fp (str_of ".tmp")) as [temp|e].
  - unfold bind, open_w, write_text, os_replace. simpl.
    destruct (utf8_encode s) as [bs|]; simpl.
    + rewrite dget_dset_same. destruct (pystr_eqb temp fp);
        intro H; injection H as _ <-; simpl;
        repeat (apply dset_nodup || apply ddel_nodup); exact Hnd.
    + intro H. injection H as _ <-. simpl. apply dset_nodup. exact Hnd.
  - intro H. injection H as _ <-. exact Hnd.
Qed.

Lemma current_mtime_none (p : pystr) (f : fsys) :
  path_exists p f = false -> current_mtime p f = None.
Proof.
  unfold path_exists, dmem, current_mtime.
  destruct (dget p (files f)); [discriminate|reflexivity].
Qed.

(** [_load_all] with an empty cache reads the file. *)
Lemma load_all_fresh (st : store) (data : tasks) :
  cache (mgr st) = None ->
  load_raw_data (file_path (mgr st)) (fs st) = Ok data ->
  load_all st
  = (Ok (copy_dict_of_dicts data),
     mkStore (fs st) (mkManager (file_path (mgr st)) (lock (mgr st))
                       (Some (copy_dict_of_dicts data))
                       (current_mtime (file_path (mgr st)) (fs st))
                       (Some (serialize_data data)))).
Proof.
  intros Hc Hl. unfold load_all, bind, get_mgr, get_fs. simpl.
  rewrite Hc. unfold storage_path. rewrite Hl. reflexivity.
Qed.

(** [_load_all] when the file is gone and the cache remembers a time. *)
Lemma load_all_missing (st : store) :
  path_exists (file_path (mgr st)) (fs st) = false ->
  cache_mtime (mgr st) <> None ->
  load_all st
  = (Ok [], mkStore (fs st) (mkManager (file_path (mgr st)) (lock (mgr st))
                              (Some []) None (Some (serialize_data [])))).
Proof.
  intros Hp Ht. unfold load_all, bind, get_mgr, get_fs. simpl.
  unfold storage_path. rewrite (current_mtime_none _ _ Hp).
  assert (Hl : load_raw_data (file_path (mgr st)) (fs st) = Ok []).
  { unfold load_raw_data. rewrite Hp. reflexivity. }
  destruct (cache (mgr st)).
  - destruct (cache_mtime (mgr st)); [|contradiction]. simpl.
    rewrite Hl. reflexivity.
  - rewrite Hl. reflexivity.
Qed.

Lemma load_raw_data_readable (fp text : pystr) (f : fsys) :
  read_text fp f = Ok text -> exists data, load_raw_data fp f = Ok data.
Proof.
  intro Hr. unfold load_raw_data. destruct (path_exists fp f); simpl;
    [|eexists; reflexivity].
  rewrite Hr. destruct (strip text); [eexists; reflexivity|].
  destruct (json_loads _) as [[]|]; eexists; reflexivity.
Qed.

Lemma bind_ok {S A B} (m : ST S A) (k : A -> ST S B) (s s' : S) (a : A) :
  m s = (Ok a, s') -> bind m k s = k a s'.
Proof. intro H. unfold bind. rewrite H. reflexivity. Qed.

Lemma bind_raise {S A B} (m : ST S A) (k : A -> ST S B) (s s' : S) (e : exn) :
  m s = (Raise e, s') -> bind m k s = (Raise e, s').
Proof. intro H. unfold bind. rewrite H. reflexivity. Qed.

Lemma try_finally_ok {S A} (m : ST S A) (f : ST S unit) (s s' s'' : S)
  (r : outcome A) :
  m s = (r, s') -> f s' = (Ok tt, s'') -> try_finally m f s = (r, s'').
Proof. intros H1 H2. unfold try_finally. rewrite H1, H2. reflexivity. Qed.

(** [_acquire_lock] does nothing when its path already exists. *)
Lemma acquire_lock_exists (st : store) :
  path_exists (lock (mgr st)) (fs st) = true -> acquire_lock st = (Ok tt, st).
Proof.
  intro H. unfold acquire_lock, bind, get_mgr, get_fs. simpl. rewrite H.
  reflexivity.
Qed.

(** [_release_lock] unlinks its path when it exists. *)
Lemma release_lock_exists (st : store) :
  path_exists (lock (mgr st)) (fs st) = true ->
  release_lock st
  = (Ok tt, mkStore (mkFs (ddel (lock (mgr st)) (files (fs st))) (clock (fs st)))
                    (mgr st)).
Proof.
  intro H. unfold release_lock, bind, get_mgr, get_fs. simpl. rewrite H.
  reflexivity.
Qed.

Lemma load_all_readable (st : store) (text : pystr) :
  read_text (file_path (mgr st)) (fs st) = Ok text ->
  exists d st', load_all st = (Ok d, st').
Proof.
  intro Hr. destruct (load_raw_data_readable _ _ _ Hr) as [data Hd].
  unfold load_all, bind, get_mgr, get_fs. simpl. unfold storage_path.
  rewrite Hd. destruct (cache (mgr st)).
  - destruct (mtime_eqb _ _); do 2 eexists; reflexivity.
  - do 2 eexists; reflexivity.
Qed.

Lemma path_exists_dget (p : pystr) (f : fsys) (x : file) :
  dget p (files f) = Some x -> path_exists p f = true.
Proof. unfold path_exists, dmem. intro H. rewrite H. reflexivity. Qed.

Lemma current_mtime_some (p : pystr) (f : fsys) :
  path_exists p f = true -> current_mtime p f <> None.
Proof.
  unfold path_exists, dmem, current_mtime.
  destruct (dget p (files f)); [discriminate|discriminate].
Qed.

(** [_save_all] succeeds, keeps the storage file present and the file
    table without duplicate paths, and leaves a modification time in the
    cache, when the file is present, the temporary path is defined and the
    serialization is encodable. *)
Lemma save_all_present (d : tasks) (st st' : store) (r : outcome unit)
  (temp : pystr) :
  (forall v, utf8_encode (json_dumps v) <> None) ->
  with_suffix (file_path (mgr st)) (str_of ".tmp") = Ok temp ->
  path_exists (file_path (mgr st)) (fs st) = true ->
  NoDup (map fst (files (fs st))) ->
  cache_mtime (mgr st) <> None ->
  save_all d st = (r, st') ->
  r = Ok tt /\ file_path (mgr st') = file_path (mgr st)
  /\ lock (mgr st') = lock (mgr st)
  /\ path_exists (file_path (mgr st)) (fs st') = true
  /\ NoDup (map fst (files (fs st')))
  /\ cache_mtime (mgr st') <> None.
Proof.
  intros Henc Htmp Hex Hnd Hmt Hs.
  destruct (save_all_cases _ _ _ _ Hs)
    as [(-> & Hf & Hp & Hl & Hm & _) | Hw].
  - rewrite Hf, Hp, Hl, Hm. repeat split; auto.
  - destruct (save_all_write_cases _ _ _ _ Hw) as [r0 [Hr0 Hcase]].
    destruct (utf8_encode (serialize_data d)) as [bs|] eqn:He;
      [|exfalso; exact (Henc _ He)].
    destruct (save_raw_data_ok _ _ _ _ (fs st) Htmp He)
      as (f' & Hsv & Hget & _ & _).
    rewrite Hsv in Hr0. injection Hr0 as <- Hf'.
    destruct Hcase as [(_ & -> & Hp & Hl & _ & Hm) | (e & He0 & _)];
      [|discriminate].
    assert (Hpe : path_exists (file_path (mgr st)) (fs st') = true).
    { rewrite <- Hf'. exact (path_exists_dget _ _ _ Hget). }
    rewrite Hp, Hl, Hm, Hpe. repeat split; auto.
    + rewrite <- Hf'. exact (save_raw_data_nodup _ _ _ _ _ Hnd Hsv).
    + apply current_mtime_some. exact Hpe.
Qed.

(** When the lock path is the storage path, a successful [save_task]
    removes the storage file in its [finally] clause. *)
Lemma save_task_lock_collision (st : store) (t : task) (id : json)
  (text temp : pystr) :
  (forall v, utf8_encode (json_dumps v) <> None) ->
  lock (mgr st) = file_path (mgr st) ->
  path_exists (file_path (mgr st)) (fs st) = true ->
  read_text (file_path (mgr st)) (fs st) = Ok text ->
  NoDup (map fst (files (fs st))) ->
  dget (str_of "id") t = Some id ->
  with_suffix (file_path (mgr st)) (str_of ".tmp") = Ok temp ->
  exists st2, save_task t st = (Ok tt, st2)
    /\ file_path (mgr st2) = file_path (mgr st)
    /\ path_exists (file_path (mgr st)) (fs st2) = false
    /\ cache_mtime (mgr st2) <> None.
Proof.
  intros Henc Hlk Hex Hrd Hnd Hid Htmp.
  unfold save_task.
  rewrite (bind_ok _ _ st st tt) by (apply acquire_lock_exists; rewrite Hlk; exact Hex).
  destruct (load_all_readable _ _ Hrd) as (d & st1 & Hl).
  destruct (load_all_ok _ _ _ Hl) as (Hf1 & Hp1 & Hl1 & Hm1 & _).
  destruct (save_all (dset (py_str id) t d) st1) as [r st2] eqn:Hs.
  assert (Hmt1 : cache_mtime (mgr st1) <> None).
  { rewrite Hm1. apply current_mtime_some. exact Hex. }
  rewrite <- Hp1 in Htmp. rewrite <- Hf1, <- Hp1 in Hex. rewrite <- Hf1 in Hnd.
  destruct (save_all_present _ _ _ _ _ Henc Htmp Hex Hnd Hmt1 Hs)
    as (-> & Hp2 & Hl2 & Hex2 & Hnd2 & Hmt2).
  exists (mkStore (mkFs (ddel (lock (mgr st2)) (files (fs st2))) (clock (fs st2)))
                  (mgr st2)).
  split.
  - apply try_finally_ok with (s' := st2).
    + rewrite (bind_ok _ _ st st1 d Hl). rewrite Hid. exact Hs.
    + apply release_lock_exists. rewrite Hl2, Hl1, Hlk, <- Hp1. exact Hex2.
  - simpl. rewrite Hp2, Hp1. repeat split; auto.
    rewrite Hl2, Hl1, Hlk, <- Hp1.
    unfold path_exists, dmem. simpl. rewrite dget_ddel_same by exact Hnd2.
    reflexivity.
Qed.

(** [get_task] after the storage file vanished under a cache that holds a
    modification time: the reload yields [{}] and the lookup fails. *)
Lemma get_task_file_gone (st : store) (tid : json) :
  path_exists (file_path (mgr st)) (fs st) = false ->
  cache_mtime (mgr st) <> None ->
  fst (get_task tid st) = Raise (KeyError (not_found_msg tid)).
Proof.
  intros Hp Hm. unfold get_task.
  rewrite (bind_ok _ _ _ _ _ (load_all_missing st Hp Hm)). reflexivity.
Qed.

(** C2 (code bug). [create_storage("tasks.lock")] takes
    [Path("tasks.lock").with_suffix(".lock")], the storage path itself, as
    its lock.  Then [save_task({"id": "t1"})] succeeds, but its [finally]
    clause [_release_lock] unlinks the storage file, and [get_task("t1")]
    raises [KeyError] instead of returning the saved record. *)
Theorem save_get_lock_named_store (clk : Z) :
  (forall v, utf8_encode (json_dumps v) <> None) ->
  exists m fs1 st2,
    create_storage tasks_lock_path (mkFs [] clk) = (Ok m, fs1)
    /\ lock m = file_path m
    /\ save_task [(str_of "id", JStr (str_of "t1"))] (mkStore fs1 m) = (Ok tt, st2)
    /\ path_exists tasks_lock_path (fs st2) = false
    /\ fst (get_task (JStr (str_of "t1")) st2)
       = Raise (KeyError (not_found_msg (JStr (str_of "t1")))).
Proof.
  intros Henc.
  set (m := mkManager tasks_lock_path tasks_lock_path None None None).
  set (fs1 := mkFs [(tasks_lock_path, mkFile [x7b; x7d] clk)] clk).
  assert (Hc : create_storage tasks_lock_path (mkFs [] clk) = (Ok m, fs1))
    by reflexivity.
  destruct (save_task_lock_collision (mkStore fs1 m)
              [(str_of "id", JStr (str_of "t1"))] (JStr (str_of "t1"))
              (str_of "{}") tasks_tmp_path Henc)
    as (st2 & Hs & Hp & Hgone & Hm); try reflexivity.
  { simpl. repeat constructor. intros []. }
  exists m, fs1, st2. repeat split; auto.
  - rewrite <- Hp in Hgone. apply get_task_file_gone; auto.
Qed.

(** C4 (code bug). A store at "tasks.lock" whose file holds [{"t1": {}}]:
    [delete_task("t2")] raises the not-found [KeyError], but its [finally]
    clause unlinks the storage file (the lock path is the storage path), so
    the persisted map changes from [{"t1": {}}] to [{}]. *)
Theorem delete_missing_lock_named_store (clk : Z) :
  json_loads one_task_text = Some (JObj [(str_of "t1", JObj [])]) ->
  exists m st1,
    create_storage tasks_lock_path
      (mkFs [(tasks_lock_path, mkFile one_task_bytes clk)] clk)
    = (Ok m, mkFs [(tasks_lock_path, mkFile one_task_bytes clk)] clk)
    /\ fst (load_all (mkStore (mkFs [(tasks_lock_path, mkFile one_task_bytes clk)] clk) m))
       = Ok [(str_of "t1", [])]
    /\ delete_task (JStr (str_of "t2"))
         (mkStore (mkFs [(tasks_lock_path, mkFile one_task_bytes clk)] clk) m)
       = (Raise (KeyError (not_found_msg (JStr (str_of "t2")))), st1)
    /\ path_exists tasks_lock_path (fs st1) = false
    /\ fst (load_all st1) = Ok [].
Proof.
  intros Hj.
  set (fs0 := mkFs [(tasks_lock_path, mkFile one_task_bytes clk)] clk).
  set (m := mkManager tasks_lock_path tasks_lock_path None None None).
  assert (Hraw : load_raw_data tasks_lock_path fs0 = Ok [(str_of "t1", [])]).
  { unfold load_raw_data.
    replace (path_exists tasks_lock_path fs0) with true by reflexivity.
    cbn [negb].
    replace (read_text tasks_lock_path fs0) with (@Ok pystr one_task_text)
      by reflexivity.
    cbv zeta. change (strip one_task_text) with one_task_text.
    rewrite Hj. reflexivity. }
  assert (Hl : load_all (mkStore fs0 m)
               = (Ok [(str_of "t1", [])],
                  mkStore fs0 (mkManager tasks_lock_path tasks_lock_path
                                 (Some [(str_of "t1", [])])
                                 (current_mtime tasks_lock_path fs0)
                                 (Some (serialize_data [(str_of "t1", [])]))))).
  { rewrite (load_all_fresh (mkStore fs0 m) _ eq_refl Hraw). reflexivity. }
  set (st1 := mkStore fs0 (mkManager tasks_lock_path tasks_lock_path
                             (Some [(str_of "t1", [])])
                             (current_mtime tasks_lock_path fs0)
                             (Some (serialize_data [(str_of "t1", [])])))).
  fold st1 in Hl.
  exists m, (mkStore (mkFs [] clk) (mgr st1)).
  split; [reflexivity|]. split; [rewrite Hl; reflexivity|].
  split; [|split; [reflexivity|]].
  - unfold delete_task.
    rewrite (bind_ok _ _ _ _ tt (acquire_lock_exists (mkStore fs0 m) eq_refl)).
    apply try_finally_ok with (s' := st1).
    + rewrite (bind_ok _ _ _ _ _ Hl). reflexivity.
    + rewrite release_lock_exists by reflexivity. reflexivity.
  - rewrite load_all_missing; [reflexivity..|]. simpl. discriminate.
Qed.

(** C5 (code bug). A storage file whose bytes are not UTF-8 (the single
    byte 0xFF) makes [open(...).read()] raise [UnicodeDecodeError], which
    the [except json.JSONDecodeError] of [_load_raw_data] does not catch:
    loading the store and [list_tasks] raise instead of yielding an empty
    map, whatever the JSON parser. *)
Theorem list_tasks_undecodable_file (status : option pystr) (clk : Z) :
  exists m,
    create_storage tasks_json_path (mkFs [(tasks_json_path, mkFile [xff] clk)] clk)
    = (Ok m, mkFs [(tasks_json_path, mkFile [xff] clk)] clk)
    /\ fst (load_all (mkStore (mkFs [(tasks_json_path, mkFile [xff] clk)] clk) m))
       = Raise UnicodeDecodeError
    /\ fst (list_tasks status (mkStore (mkFs [(tasks_json_path, mkFile [xff] clk)] clk) m))
       = Raise UnicodeDecodeError.
Proof.
  eexists. split; [reflexivity|]. split; reflexivity.
Qed.

(** C9 (code bug). For the storage path "tasks.tmp" the temporary path
    [Path("tasks.tmp").with_suffix(".tmp")] is the storage path itself:
    [_save_raw_data] opens the real file for writing (truncating it) and
    writes it in place, [os.replace] of the path onto itself doing nothing.
    Between the two steps the real file is empty and a reader loads [{}];
    no temporary sibling is written and renamed. *)
Theorem save_raw_data_tmp_named_store (s : pystr) (f : fsys) :
  with_suffix tasks_tmp_path (str_of ".tmp") = Ok tasks_tmp_path
  /\ save_raw_data tasks_tmp_path s f
     = (open_w tasks_tmp_path ;;; write_text tasks_tmp_path s) f
  /\ dget tasks_tmp_path (files (snd (open_w tasks_tmp_path f)))
     = Some (mkFile [] (clock f))
  /\ load_raw_data tasks_tmp_path (snd (open_w tasks_tmp_path f)) = Ok [].
Proof.
  split; [reflexivity|]. split; [|split].
  - unfold save_raw_data.
    replace (with_suffix tasks_tmp_path (str_of ".tmp")) with (@Ok pystr tasks_tmp_path)
      by reflexivity.
    unfold bind, open_w, write_text, os_replace. simpl.
    destruct (utf8_encode s); simpl; [|reflexivity].
    rewrite dget_dset_same. reflexivity.
  - simpl. apply dget_dset_same.
  - unfold load_raw_data, path_exists, dmem, read_text. simpl.
    rewrite dget_dset_same. reflexivity.
Qed.

(** ** Input checks and response payloads of job_manager.py *)

Lemma lstrip_idem (s : pystr) : lstrip (lstrip s) = lstrip s.
Proof.
  induction s as [|c s IH]; simpl; auto.
  destruct (py_isspace c) eqn:E; auto. simpl. rewrite E. reflexivity.
Qed.

Lemma lstrip_suffix (s : pystr) : exists p, s = p ++ lstrip s.
Proof.
  induction s as [|c s [p Hp]]; simpl; [exists []; reflexivity|].
  destruct (py_isspace c); [exists (c :: p); simpl; f_equal; exact Hp|].
  exists []. reflexivity.
Qed.

Lemma lstrip_head (s : pystr) :
  lstrip s = [] \/ exists c r, lstrip s = c :: r /\ py_isspace c = false.
Proof.
  induction s as [|c s IH]; simpl; auto.
  destruct (py_isspace c) eqn:E; auto. right. exists c, s. auto.
Qed.

Lemma lstrip_nospace (s : pystr) :
  (forall ch, In ch s -> py_isspace ch = false) -> lstrip s = s.
Proof.
  destruct s as [|c s]; simpl; auto. intro H. rewrite (H c (or_introl eq_refl)).
  reflexivity.
Qed.

(** [s.strip().strip() == s.strip()] *)
Lemma strip_idem (s : pystr) : strip (strip s) = strip s.
Proof.
  unfold strip.
  assert (Hb : lstrip (rev (lstrip (rev (lstrip s)))) = rev (lstrip (rev (lstrip s)))).
  { destruct (rev (lstrip (rev (lstrip s)))) as [|y z] eqn:Eb; [reflexivity|].
    destruct (lstrip_suffix (rev (lstrip s))) as [p Hp].
    assert (Ha : lstrip s = rev (lstrip (rev (lstrip s))) ++ rev p).
    { assert (H2 : rev (rev (lstrip s)) = rev (p ++ lstrip (rev (lstrip s))))
        by (f_equal; exact Hp).
      rewrite rev_involutive, rev_app_distr in H2. exact H2. }
    rewrite Eb in Ha.
    destruct (lstrip_head s) as [H0|(c & r & Hc & Hsp)].
    - rewrite H0 in Ha. discriminate.
    - rewrite Hc in Ha. injection Ha as -> _. simpl. rewrite Hsp. reflexivity. }
  rewrite Hb, rev_involutive, lstrip_idem. reflexivity.
Qed.

Lemma strip_nospace (s : pystr) :
  (forall ch, In ch s -> py_isspace ch = false) -> strip s = s.
Proof.
  intro H. unfold strip. rewrite (lstrip_nospace s H).
  rewrite lstrip_nospace; [apply rev_involutive|].
  intros ch Hin. apply H. rewrite (in_rev s). exact Hin.
Qed.

Lemma forallb_contains (allowed s : pystr) :
  forallb (fun ch => contains_char ch allowed) s = true
  <-> (forall ch, In ch s -> In ch allowed).
Proof.
  rewrite forallb_forall. split; intros H ch Hin.
  - apply contains_char_in. auto.
  - apply contains_char_in. auto.
Qed.

Lemma id_allowed_nospace (ch : Z) : In ch id_allowed -> py_isspace ch = false.
Proof.
  intro H.
  assert (Hall : forallb (fun c => negb (py_isspace c)) id_allowed = true)
    by reflexivity.
  rewrite forallb_forall in Hall. specialize (Hall ch H).
  destruct (py_isspace ch); [discriminate|reflexivity].
Qed.

Lemma branch_allowed_nospace (ch : Z) : In ch branch_allowed -> py_isspace ch = false.
Proof.
  intro H.
  assert (Hall : forallb (fun c => negb (py_isspace c)) branch_allowed = true)
    by reflexivity.
  rewrite forallb_forall in Hall. specialize (Hall ch H).
  destruct (py_isspace ch); [discriminate|reflexivity].
Qed.

(** [_validate_task_identifier] accepts a given identifier exactly when its
    stripped form is non-empty and made only of ASCII letters, digits, ['-']
    and ['_'], and then returns that stripped form. *)
Lemma validate_task_identifier_ok (t s : pystr) :
  validate_task_identifier (Some t) = Ok s <->
  s = strip t /\ s <> [] /\ (forall ch, In ch s -> In ch id_allowed).
Proof.
  unfold validate_task_identifier. destruct (strip t) as [|c r] eqn:Hs.
  - split; [discriminate|]. intros (-> & H & _). contradiction H. reflexivity.
  - destruct (forallb (fun ch => contains_char ch id_allowed) (c :: r)) eqn:Hf.
    + rewrite forallb_contains in Hf. split.
      * intro H. injection H as <-. split; [reflexivity|]. split; [discriminate|].
        exact Hf.
      * intros (-> & _ & _). reflexivity.
    + split; [discriminate|]. intros (-> & _ & Hall).
      apply forallb_contains in Hall. congruence.
Qed.

(** Every input check of job_manager.py returns a string that is already
    stripped, and checking that string again accepts it unchanged. *)
Theorem input_checks_idempotent :
  (forall t s, validate_task_identifier (Some t) = Ok s ->
     strip s = s /\ validate_task_identifier (Some s) = Ok s)
  /\ (forall d s, validate_description (Some d) = Ok s ->
     strip s = s /\ validate_description (Some s) = Ok s)
  /\ (forall m s, validate_message_content (Some m) = Ok s ->
     strip s = s /\ validate_message_content (Some s) = Ok s)
  /\ (forall r s, validate_repository (Some r) = Ok s ->
     strip s = s /\ validate_repository (Some s) = Ok s)
  /\ (forall b s, normalize_branch (Some b) = Ok s ->
     strip s = s /\ normalize_branch (Some s) = Ok s).
Proof.
  split; [|split; [|split; [|split]]].
  - intros t s H. apply validate_task_identifier_ok in H as Hs.
    destruct Hs as (-> & Hne & Hall). rewrite strip_idem.
    split; [reflexivity|]. apply validate_task_identifier_ok.
    rewrite strip_idem. auto.
  - intros d s. unfold validate_description.
    destruct (strip d) as [|c r] eqn:Hs; [discriminate|].
    intro H. injection H as <-. rewrite <- Hs, strip_idem. split; [reflexivity|].
    rewrite Hs. reflexivity.
  - intros m s. unfold validate_message_content.
    destruct (strip m) as [|c r] eqn:Hs; [discriminate|].
    intro H. injection H as <-. rewrite <- Hs, strip_idem. split; [reflexivity|].
    rewrite Hs. reflexivity.
  - intros r s. unfold validate_repository.
    destruct (strip r) as [|c r'] eqn:Hs; [discriminate|].
    destruct (negb (contains_char 47 (c :: r'))) eqn:Hc; [discriminate|].
    intro H. injection H as <-. rewrite <- Hs, strip_idem. split; [reflexivity|].
    rewrite Hs, Hc. reflexivity.
  - intros b s. unfold normalize_branch.
    destruct (strip b) as [|c r] eqn:Hs.
    + intro H. injection H as <-. split; reflexivity.
    + destruct (forallb (fun ch => contains_char ch branch_allowed) (c :: r)) eqn:Hf;
        [|discriminate].
      intro H. injection H as <-.
      assert (Hn : strip (c :: r) = c :: r).
      { apply strip_nospace. intros ch Hin. apply branch_allowed_nospace.
        exact (proj1 (forallb_contains branch_allowed (c :: r)) Hf ch Hin). }
      split; [exact Hn|]. rewrite Hn, Hf. reflexivity.
Qed.






(** ** The client's configuration, sessions, requests and shutdown *)

(** When starting the server fails inside [__enter__], [__exit__] does not
    run, the body is skipped and the client keeps the session count 1 that
    [__enter__] set: every later [use_client] session on that client then
    fails with [RuntimeError("Client context already active")] before its
    body runs. *)
Theorem failed_start_blocks_client (c : client) (e : pystr) :
  active_contexts c = 0 -> (forall p, process c = Some p -> p_alive p = false) ->
  exists c1,
    (forall A (body : ST client A),
       with_session (SpawnError e) body (use_client, c)
       = (Raise (RuntimeError (str_of "Failed to start MCP server: " ++ e)),
          (mkCtx true false, c1)))
    /\ active_contexts c1 = 1 /\ process c1 = None
    /\ (forall A (body : ST client A) launch,
        with_session launch body (use_client, c1)
        = (Raise (RuntimeError (str_of "Client context already active")),
           (use_client, c1))).
Proof.
  intros Ha Hnot.
  exists (with_process (with_active c 1) None).
  assert (Henter : ctx_enter (SpawnError e) (use_client, c)
    = (Raise (RuntimeError (str_of "Failed to start MCP server: " ++ e)),
       (mkCtx true false, with_process (with_active c 1) None))).
  { unfold ctx_enter. simpl. rewrite Ha. simpl.
    unfold start_client, bind, ensure_not_running. simpl.
    destruct (process c) as [p|] eqn:Hp; [rewrite (Hnot p eq_refl)|]; reflexivity. }
  split; [|split; [reflexivity|split; [reflexivity|]]].
  - intros A body. unfold with_session, bind. rewrite Henter. reflexivity.
  - intros A body launch. reflexivity.
Qed.

Lemma digits_rev_nonempty (f : nat) (n : Z) : (0 < f)%nat -> digits_rev f n <> [].
Proof. destruct f; simpl; [lia|discriminate]. Qed.

Lemma digits_rev_inj (f g : nat) (a b : Z) :
  0 <= a < Z.of_nat f -> 0 <= b < Z.of_nat g ->
  digits_rev f a = digits_rev g b -> a = b.
Proof.
  revert g a b. induction f as [|f IH]; intros g a b Ha Hb; [lia|].
  destruct g as [|g]; [lia|]. cbn [digits_rev].
  intro H. pose proof (f_equal (@hd Z 0) H) as Hd.
  pose proof (f_equal (@tl Z) H) as Ht. cbn [hd tl] in Hd, Ht. clear H.
  assert (Hm : a mod 10 = b mod 10) by lia.
  pose proof (Z.div_mod a 10 ltac:(lia)) as Hda.
  pose proof (Z.div_mod b 10 ltac:(lia)) as Hdb.
  destruct (a <? 10) eqn:Ea, (b <? 10) eqn:Eb.
  - rewrite Z.ltb_lt in Ea, Eb. rewrite Z.mod_small in Hm by lia.
    rewrite Z.mod_small in Hm by lia. exact Hm.
  - rewrite Z.ltb_ge in Eb.
    exfalso. apply (digits_rev_nonempty g (b / 10)); [|auto].
    assert (0 < b / 10) by (apply Z.div_str_pos; lia).
    assert (b / 10 < b) by (apply Z.div_lt; lia). lia.
  - rewrite Z.ltb_ge in Ea.
    exfalso. apply (digits_rev_nonempty f (a / 10)); [|auto].
    assert (0 < a / 10) by (apply Z.div_str_pos; lia).
    assert (a / 10 < a) by (apply Z.div_lt; lia). lia.
  - rewrite Z.ltb_ge in Ea, Eb.
    assert (a / 10 < a) by (apply Z.div_lt; lia).
    assert (b / 10 < b) by (apply Z.div_lt; lia).
    assert (a / 10 = b / 10).
    { apply (IH g); auto; split; try (apply Z.div_pos; lia); lia. }
    lia.
Qed.

Lemma str_of_nat_inj (a b : Z) :
  0 <= a -> 0 <= b -> str_of_nat a = str_of_nat b -> a = b.
Proof.
  unfold str_of_nat. intros Ha Hb H.
  apply (f_equal (@rev Z)) in H. rewrite !rev_involutive in H.
  apply (digits_rev_inj (Z.to_nat a + 1) (Z.to_nat b + 1) a b); auto; lia.
Qed.

Lemma read_json_rpc_response_process (c : client) (p : proc) :
  process c = Some p ->
  exists p', process (snd (read_json_rpc_response c)) = Some p'
    /\ p_stdin p' = p_stdin p.
Proof.
  intro Hp. unfold read_json_rpc_response. rewrite Hp.
  destruct (read_response_lines (p_stdout p)) as [r rest].
  eexists. split; reflexivity.
Qed.

Lemma invoke_tool_state (m : pystr) (params : dict json) (c : client) :
  let n := match request_id_generator c with Some v => v | None => 0 end in
  let line := json_dumps (build_json_rpc_request m params (str_of_nat (n + 1)))
              ++ [10] in
  request_id_generator (snd (invoke_tool m params c)) = Some (n + 1)
  /\ (process c = None ->
      invoke_tool m params c
      = (Raise (RuntimeError (str_of "MCP client process is not running")),
         with_generator c (Some (n + 1))))
  /\ (forall p, process c = Some p ->
      exists p', process (snd (invoke_tool m params c)) = Some p'
        /\ p_stdin p' = p_stdin p ++ [line]).
Proof.
  intros n line.
  unfold invoke_tool, send_and_read, bind, next_request_id, send_json_rpc_request.
  simpl. fold n. destruct (process c) as [p|] eqn:Hp; simpl.
  - unfold read_json_rpc_response. simpl.
    destruct (read_response_lines (p_stdout p)) as [[r|e] rest]; simpl;
      (split; [reflexivity|]); (split; [discriminate|]);
      intros p0 Hp0; injection Hp0 as <-; eexists; split; reflexivity.
  - split; [reflexivity|]. split; [reflexivity|]. discriminate.
Qed.

(** Each [invoke_tool] call advances the client's request counter by one
    (from 0 for a client without one), also when it raises; without a
    process it raises [RuntimeError] and changes nothing else. With a
    process, it writes one JSON-RPC line carrying the next counter value as
    its id, so two successive calls write two lines whose ids differ. *)
Theorem invoke_tool_request_ids (m1 m2 : pystr) (a1 a2 : dict json) (c : client)
  (p : proc) :
  let n := match request_id_generator c with Some v => v | None => 0 end in
  0 <= n -> process c = Some p ->
  let c1 := snd (invoke_tool m1 a1 c) in
  let c2 := snd (invoke_tool m2 a2 c1) in
  request_id_generator c2 = Some (n + 2)
  /\ exists p2, process c2 = Some p2
     /\ p_stdin p2
        = p_stdin p
          ++ [json_dumps (build_json_rpc_request m1 a1 (str_of_nat (n + 1))) ++ [10];
              json_dumps (build_json_rpc_request m2 a2 (str_of_nat (n + 2))) ++ [10]]
     /\ str_of_nat (n + 1) <> str_of_nat (n + 2).
Proof.
  intros n Hn Hp c1 c2.
  destruct (invoke_tool_state m1 a1 c) as (Hg1 & _ & Hs1).
  destruct (Hs1 p Hp) as (p1 & Hp1 & Hin1).
  destruct (invoke_tool_state m2 a2 c1) as (Hg2 & _ & Hs2).
  fold n in Hg1, Hin1. fold c1 in Hg1, Hp1.
  rewrite Hg1 in Hg2, Hs2.
  destruct (Hs2 p1 Hp1) as (p2 & Hp2 & Hin2).
  split; [fold c2 in Hg2; rewrite Hg2; f_equal; lia|].
  exists p2. split; [exact Hp2|]. split.
  - rewrite Hin2, Hin1, <- app_assoc. simpl.
    replace (n + 1 + 1) with (n + 2) by lia. reflexivity.
  - intro H. apply str_of_nat_inj in H; lia.
Qed.

Lemma read_response_lines_blanks (blanks : list pystr) (rest : list line) :
  Forall (fun l => l <> [] /\ strip l = []) blanks ->
  read_response_lines (map Line blanks ++ rest) = read_response_lines rest.
Proof.
  induction 1 as [|l blanks [Hne Hs] _ IH]; simpl; auto.
  destruct l as [|ch l]; [contradiction Hne; reflexivity|].
  rewrite Hs. exact IH.
Qed.

(** [read_json_rpc_response] skips the blank lines the server writes
    (non-empty lines that strip to nothing) and returns the first line that
    parses as a JSON object, consuming exactly the lines up to it; when the
    stream ends after blank lines it raises [RuntimeError("No response
    received from MCP server")]. *)
Theorem read_json_rpc_response_skips_blank (c : client) (p : proc)
  (blanks : list pystr) (rest : list line) :
  process c = Some p -> Forall (fun l => l <> [] /\ strip l = []) blanks ->
  (forall s r, strip s <> [] -> json_loads (strip s) = Some (JObj r) ->
     p_stdout p = map Line blanks ++ Line s :: rest ->
     read_json_rpc_response c
     = (Ok r, with_process c (Some (mkProc (p_alive p) (terminate_raises p)
                                  (exit_delay p) (p_stdin p) rest))))
  /\ (p_stdout p = map Line blanks ->
      fst (read_json_rpc_response c)
      = Raise (RuntimeError (str_of "No response received from MCP server"))).
Proof.
  intros Hp Hb. unfold read_json_rpc_response. rewrite Hp. split.
  - intros s r Hs Hr Hout. rewrite Hout, read_response_lines_blanks by exact Hb.
    destruct s as [|ch s]; [contradiction Hs; reflexivity|]. simpl.
    destruct (strip (ch :: s)) as [|d t] eqn:E; [contradiction Hs; reflexivity|].
    rewrite Hr. reflexivity.
  - intro Hout. rewrite Hout.
    rewrite <- (app_nil_r (map Line blanks)), read_response_lines_blanks by exact Hb.
    reflexivity.
Qed.

(** [stop_client] never raises and never sends [SIGKILL]: it sends at most
    one [SIGTERM]; when [terminate()] succeeds and the process exits within
    the client's timeout, it returns [True] after exactly one [SIGTERM]. *)
Theorem stop_client_no_kill (c : client) :
  (exists b, fst (stop_client c) = Ok b)
  /\ (signals (snd (stop_client c)) = signals c
      \/ signals (snd (stop_client c)) = signals c ++ [SIGTERM])
  /\ (forall p d, process c = Some p -> terminate_raises p = false ->
      exit_delay p = Some d -> d <= timeout c ->
      stop_client c = (Ok true, with_process (with_signal c SIGTERM) None)).
Proof.
  unfold stop_client. split; [|split].
  - destruct (process c) as [p|]; [|eexists; reflexivity].
    destruct (terminate_raises p); [eexists; reflexivity|].
    unfold wait_for_process. destruct (exit_delay p) as [d|];
      [destruct (d <=? timeout c)|]; eexists; reflexivity.
  - destruct (process c) as [p|]; [|left; reflexivity].
    destruct (terminate_raises p); [left; reflexivity|].
    unfold wait_for_process. destruct (exit_delay p) as [d|];
      [destruct (d <=? timeout c)|]; right; reflexivity.
  - intros p d Hp Ht Hd Hle. rewrite Hp, Ht. unfold wait_for_process.
    rewrite Hd. apply Z.leb_le in Hle. rewrite Hle. reflexivity.
Qed.


(** ** The task store with a lock path apart from the storage path *)

Lemma mtime_eqb_refl (a : option Z) : mtime_eqb a a = true.
Proof. destruct a; simpl; [apply Z.eqb_refl|reflexivity]. Qed.

Lemma ddel_absent {A} (k : pystr) (d : dict A) : dget k d = None -> ddel k d = d.
Proof.
  induction d as [|[k' v'] d IH]; simpl; auto.
  destruct (pystr_eqb k k'); [discriminate|]. intro H. rewrite (IH H). reflexivity.
Qed.

Lemma ddel_app_absent {A} (k : pystr) (v : A) (d : dict A) :
  dget k d = None -> ddel k (d ++ [(k, v)]) = d.
Proof.
  induction d as [|[k' v'] d IH]; simpl.
  - rewrite pystr_eqb_refl. reflexivity.
  - destruct (pystr_eqb k k'); [discriminate|]. intro H. rewrite (IH H). reflexivity.
Qed.

Lemma dget_in {A} (k : pystr) (v : A) (d : dict A) : dget k d = Some v -> In (k, v) d.
Proof.
  induction d as [|[k' v'] d IH]; simpl; [discriminate|].
  destruct (pystr_eqb k k') eqn:E; [|auto].
  apply pystr_eqb_eq in E. subst. intro H. injection H as <-. auto.
Qed.

Lemma dget_copy_dict_of_dicts (k : pystr) (x : tasks) :
  NoDup (map fst x) -> dget k (copy_dict_of_dicts x) = option_map copy_dict (dget k x).
Proof.
  intro H. unfold copy_dict_of_dicts.
  rewrite (fold_dset_app copy_dict x []) by (auto; intros; reflexivity). simpl.
  clear H. induction x as [|[k' v] x IH]; simpl; auto.
  destruct (pystr_eqb k k'); auto.
Qed.

Lemma copy_dict_of_dicts_nodup (x : tasks) : NoDup (map fst (copy_dict_of_dicts x)).
Proof. unfold copy_dict_of_dicts. apply (fold_dset_nodup copy_dict). constructor. Qed.

Lemma dget_loaded (k : pystr) (c : tasks) (v : task) :
  dget k (copy_dict_of_dicts c) = Some v -> copy_dict v = v.
Proof.
  intro H. apply copy_dict_nodup.
  assert (Hv : Forall (fun kv => NoDup (map fst (snd kv))) (copy_dict_of_dicts c)).
  { unfold copy_dict_of_dicts.
    apply (fold_dset_values copy_dict (fun v => NoDup (map fst v))).
    - apply copy_dict_nodup_keys.
    - constructor. }
  rewrite Forall_forall in Hv. exact (Hv (k, v) (dget_in _ _ _ H)).
Qed.

Lemma load_raw_data_frame (fp : pystr) (f1 f2 : fsys) :
  dget fp (files f1) = dget fp (files f2) -> load_raw_data fp f1 = load_raw_data fp f2.
Proof.
  intro H. unfold load_raw_data, path_exists, dmem, read_text. rewrite H. reflexivity.
Qed.

Lemma load_all_frame (m : manager) (f1 f2 : fsys) :
  dget (file_path m) (files f1) = dget (file_path m) (files f2) ->
  fst (load_all (mkStore f1 m)) = fst (load_all (mkStore f2 m)).
Proof.
  intro H. unfold load_all, bind, get_mgr, get_fs. simpl. unfold storage_path.
  rewrite (load_raw_data_frame _ _ _ H). unfold current_mtime. rewrite H.
  destruct (cache m);
    [destruct (mtime_eqb _ _)|]; [reflexivity| |];
    destruct (load_raw_data (file_path m) f2); reflexivity.
Qed.

Lemma load_all_loadable (st : store) (data : tasks) :
  load_raw_data (file_path (mgr st)) (fs st) = Ok data ->
  exists d st', load_all st = (Ok d, st').
Proof.
  intro Hd. unfold load_all, bind, get_mgr, get_fs. simpl. unfold storage_path.
  rewrite Hd. destruct (cache (mgr st)).
  - destruct (mtime_eqb _ _); do 2 eexists; reflexivity.
  - do 2 eexists; reflexivity.
Qed.

Lemma load_all_cached (st : store) (c : tasks) :
  cache (mgr st) = Some c ->
  mtime_eqb (cache_mtime (mgr st)) (current_mtime (file_path (mgr st)) (fs st)) = true ->
  load_all st = (Ok (copy_dict_of_dicts c), st).
Proof.
  intros Hc He. unfold load_all, bind, get_mgr, get_fs. simpl. rewrite Hc.
  unfold storage_path. rewrite He. reflexivity.
Qed.

Lemma acquire_lock_frame (st : store) :
  NoDup (map fst (files (fs st))) ->
  exists sa, acquire_lock st = (Ok tt, sa) /\ mgr sa = mgr st
    /\ path_exists (lock (mgr st)) (fs sa) = true
    /\ (forall q, q <> lock (mgr st) -> dget q (files (fs sa)) = dget q (files (fs st)))
    /\ NoDup (map fst (files (fs sa)))
    /\ ddel (lock (mgr st)) (files (fs sa)) = ddel (lock (mgr st)) (files (fs st)).
Proof.
  intro Hnd. unfold acquire_lock, bind, get_mgr, get_fs. simpl.
  destruct (path_exists (lock (mgr st)) (fs st)) eqn:Hp.
  - exists st. repeat split; auto.
  - unfold on_fs, touch. simpl. eexists. split; [reflexivity|]. simpl.
    split; [reflexivity|]. split; [|split; [|split]].
    + unfold path_exists, dmem. simpl. rewrite dget_dset_same. reflexivity.
    + intros q Hq. apply dget_dset_other. auto.
    + apply dset_nodup. exact Hnd.
    + assert (Hn : dget (lock (mgr st)) (files (fs st)) = None).
      { unfold path_exists, dmem in Hp.
        destruct (dget (lock (mgr st)) (files (fs st))); [discriminate|reflexivity]. }
      rewrite dset_absent by exact Hn. rewrite ddel_app_absent by exact Hn.
      symmetry. apply ddel_absent. exact Hn.
Qed.

Lemma release_lock_frame (st : store) :
  NoDup (map fst (files (fs st))) ->
  exists sr, release_lock st = (Ok tt, sr) /\ mgr sr = mgr st
    /\ files (fs sr) = ddel (lock (mgr st)) (files (fs st))
    /\ clock (fs sr) = clock (fs st)
    /\ path_exists (lock (mgr st)) (fs sr) = false.
Proof.
  intro Hnd. unfold release_lock, bind, get_mgr, get_fs. simpl.
  destruct (path_exists (lock (mgr st)) (fs st)) eqn:Hp.
  - unfold on_fs, unlink. simpl. eexists. split; [reflexivity|]. simpl.
    repeat split; auto. unfold path_exists, dmem. simpl.
    rewrite dget_ddel_same by exact Hnd. reflexivity.
  - exists st. repeat split; auto. symmetry. apply ddel_absent.
    unfold path_exists, dmem in Hp.
    destruct (dget (lock (mgr st)) (files (fs st))); [discriminate|reflexivity].
Qed.

(** [_save_all] on a cache whose time matches the file: it succeeds, the
    cache holds the new map with a matching time again, and only the
    storage and temporary paths can change. *)
Lemma save_all_ok (d : tasks) (st : store) (temp : pystr) :
  (forall v, utf8_encode (json_dumps v) <> None) ->
  with_suffix (file_path (mgr st)) (str_of ".tmp") = Ok temp ->
  mtime_eqb (cache_mtime (mgr st)) (current_mtime (file_path (mgr st)) (fs st)) = true ->
  NoDup (map fst (files (fs st))) ->
  exists st', save_all d st = (Ok tt, st')
    /\ file_path (mgr st') = file_path (mgr st) /\ lock (mgr st') = lock (mgr st)
    /\ cache (mgr st') = Some (copy_dict_of_dicts d)
    /\ mtime_eqb (cache_mtime (mgr st'))
                 (current_mtime (file_path (mgr st')) (fs st')) = true
    /\ (forall q, q <> file_path (mgr st) -> q <> temp ->
          dget q (files (fs st')) = dget q (files (fs st)))
    /\ NoDup (map fst (files (fs st'))).
Proof.
  intros Henc Htmp Hm Hnd.
  destruct (save_all d st) as [r st'] eqn:Hs. exists st'.
  destruct (save_all_cases _ _ _ _ Hs) as [(-> & Hf & Hp & Hl & Hmt & Hc) | Hw].
  - rewrite Hf, Hp, Hl, Hmt, Hc. repeat split; auto.
  - destruct (save_all_write_cases _ _ _ _ Hw) as [r0 [Hr0 Hcase]].
    destruct (utf8_encode (serialize_data d)) as [bs|] eqn:He;
      [|exfalso; exact (Henc _ He)].
    destruct (save_raw_data_ok _ _ _ _ (fs st) Htmp He)
      as (f' & Hsv & Hget & _ & Hoth).
    rewrite Hsv in Hr0. injection Hr0 as <- Hf'.
    destruct Hcase as [(_ & -> & Hp & Hl & Hc & Hmt) | (e & He0 & _)];
      [|discriminate].
    assert (Hpe : path_exists (file_path (mgr st)) (fs st') = true).
    { rewrite <- Hf'. exact (path_exists_dget _ _ _ Hget). }
    rewrite Hpe in Hmt. rewrite Hp, Hl, Hc, Hmt. split; [reflexivity|].
    repeat split; auto.
    + apply mtime_eqb_refl.
    + intros q Hq Ht. rewrite <- Hf'. apply Hoth; auto.
    + rewrite <- Hf'. exact (save_raw_data_nodup _ _ _ _ _ Hnd Hsv).
Qed.

(** The opening of [save_task] and [delete_task]: the lock is taken and the
    map is loaded, as [_load_all] would load it without the lock. *)
Lemma locked_load (st : store) :
  NoDup (map fst (files (fs st))) ->
  lock (mgr st) <> file_path (mgr st) ->
  (path_exists (file_path (mgr st)) (fs st) = true ->
     exists text, read_text (file_path (mgr st)) (fs st) = Ok text) ->
  exists sa d s1,
    acquire_lock st = (Ok tt, sa) /\ load_all sa = (Ok d, s1)
    /\ fst (load_all st) = Ok d
    /\ file_path (mgr s1) = file_path (mgr st) /\ lock (mgr s1) = lock (mgr st)
    /\ mtime_eqb (cache_mtime (mgr s1)) (current_mtime (file_path (mgr s1)) (fs s1)) = true
    /\ NoDup (map fst (files (fs s1)))
    /\ NoDup (map fst d)
    /\ (exists c, d = copy_dict_of_dicts c)
    /\ ddel (lock (mgr st)) (files (fs s1)) = ddel (lock (mgr st)) (files (fs st))
    /\ clock (fs s1) = clock (fs sa).
Proof.
  intros Hnd Hlf Hrd.
  destruct (acquire_lock_frame st Hnd) as (sa & Ha & Hma & _ & Hfa & Hnda & Hda).
  assert (Hfp : dget (file_path (mgr st)) (files (fs sa))
                = dget (file_path (mgr st)) (files (fs st))) by (apply Hfa; auto).
  assert (Hload : exists data, load_raw_data (file_path (mgr sa)) (fs sa) = Ok data).
  { rewrite Hma, (load_raw_data_frame _ _ _ Hfp).
    destruct (path_exists (file_path (mgr st)) (fs st)) eqn:Hp.
    - destruct (Hrd eq_refl) as [text Ht]. exact (load_raw_data_readable _ _ _ Ht).
    - unfold load_raw_data. rewrite Hp. eexists. reflexivity. }
  destruct Hload as [data Hload].
  destruct (load_all_loadable _ _ Hload) as (d & s1 & Hl).
  destruct (load_all_ok _ _ _ Hl) as (Hf1 & Hp1 & Hl1 & Hm1 & c & Hc1 & Hd).
  exists sa, d, s1. split; [exact Ha|]. split; [exact Hl|]. split.
  - assert (Hsa : sa = mkStore (fs sa) (mgr st)) by (rewrite <- Hma; destruct sa; reflexivity).
    rewrite Hsa in Hl.
    transitivity (fst (load_all (mkStore (fs st) (mgr st)))); [destruct st; reflexivity|].
    rewrite (load_all_frame (mgr st) (fs st) (fs sa)) by (symmetry; exact Hfp).
    rewrite Hl. reflexivity.
  - rewrite Hp1, Hl1, Hma. split; [reflexivity|]. split; [reflexivity|].
    split; [rewrite Hm1, Hf1, Hma; apply mtime_eqb_refl|].
    split; [rewrite Hf1; exact Hnda|].
    split; [rewrite Hd; apply copy_dict_of_dicts_nodup|].
    split; [exists c; exact Hd|]. rewrite Hf1. split; [exact Hda|reflexivity].
Qed.

(** The close of [save_task] and [delete_task]: the lock is released, and
    the next [_load_all] answers from the cache. *)
Lemma unlock_cached (st : store) (c : tasks) :
  NoDup (map fst (files (fs st))) ->
  lock (mgr st) <> file_path (mgr st) ->
  cache (mgr st) = Some c ->
  mtime_eqb (cache_mtime (mgr st)) (current_mtime (file_path (mgr st)) (fs st)) = true ->
  exists s3, release_lock st = (Ok tt, s3) /\ mgr s3 = mgr st
    /\ load_all s3 = (Ok (copy_dict_of_dicts c), s3)
    /\ path_exists (lock (mgr st)) (fs s3) = false
    /\ files (fs s3) = ddel (lock (mgr st)) (files (fs st)).
Proof.
  intros Hnd Hlf Hc Hm.
  destruct (release_lock_frame st Hnd) as (s3 & Hr & Hm3 & Hf3 & _ & Hp3).
  exists s3. split; [exact Hr|]. split; [exact Hm3|]. split; [|auto].
  apply load_all_cached; rewrite Hm3; [exact Hc|].
  unfold current_mtime. rewrite Hf3, dget_ddel_other by auto. exact Hm.
Qed.

(** With a lock path that is not the storage path, a temporary path that is
    not the lock path, and a storage file that is readable or missing,
    [save_task] succeeds and removes the lock file; [get_task] on the saved
    [id] then returns the saved record, and [get_task] on any other id
    returns what it returned before the save. *)
Theorem save_task_then_get_task (st : store) (t : task) (id : json) (temp : pystr) :
  (forall v, utf8_encode (json_dumps v) <> None) ->
  lock (mgr st) <> file_path (mgr st) ->
  with_suffix (file_path (mgr st)) (str_of ".tmp") = Ok temp ->
  temp <> lock (mgr st) ->
  NoDup (map fst (files (fs st))) ->
  (path_exists (file_path (mgr st)) (fs st) = true ->
     exists text, read_text (file_path (mgr st)) (fs st) = Ok text) ->
  dget (str_of "id") t = Some id -> NoDup (map fst t) ->
  exists st2, save_task t st = (Ok tt, st2)
    /\ path_exists (lock (mgr st)) (fs st2) = false
    /\ get_task id st2 = (Ok t, st2)
    /\ (forall k, py_str k <> py_str id -> fst (get_task k st2) = fst (get_task k st)).
Proof.
  intros Henc Hlf Htmp Htl Hnd Hrd Hid Htnd.
  destruct (locked_load st Hnd Hlf Hrd)
    as (sa & d & s1 & Ha & Hl & Hl0 & Hp1 & Hl1 & Hm1 & Hnd1 & Hndd & (c & Hdc) & _ & _).
  set (x := dset (py_str id) t d).
  rewrite <- Hp1 in Htmp.
  destruct (save_all_ok x s1 temp Henc Htmp Hm1 Hnd1)
    as (s2 & Hs & Hp2 & Hl2 & Hc2 & Hm2 & _ & Hnd2).
  assert (Hlf2 : lock (mgr s2) <> file_path (mgr s2)) by congruence.
  destruct (unlock_cached s2 _ Hnd2 Hlf2 Hc2 Hm2) as (s3 & Hr & Hm3 & Hl3 & Hpl3 & _).
  exists s3. split; [|split; [|split]].
  - unfold save_task. rewrite (bind_ok _ _ _ _ _ Ha).
    apply try_finally_ok with (s' := s2); [|exact Hr].
    rewrite (bind_ok _ _ _ _ _ Hl). rewrite Hid. exact Hs.
  - rewrite Hl2, Hl1 in Hpl3. exact Hpl3.
  - assert (Hndx : NoDup (map fst x)) by (apply dset_nodup; exact Hndd).
    unfold get_task. rewrite (bind_ok _ _ _ _ _ Hl3).
    rewrite copy_dict_of_dicts_idem, dget_copy_dict_of_dicts by exact Hndx.
    unfold x. rewrite dget_dset_same. simpl. rewrite copy_dict_nodup by exact Htnd.
    reflexivity.
  - intros k Hk. assert (Hndx : NoDup (map fst x)) by (apply dset_nodup; exact Hndd).
    unfold get_task. rewrite (bind_ok _ _ _ _ _ Hl3).
    destruct (load_all st) as [r0 s0] eqn:H0. simpl in Hl0. subst r0.
    rewrite (bind_ok _ _ _ _ _ H0).
    rewrite copy_dict_of_dicts_idem, dget_copy_dict_of_dicts by exact Hndx.
    unfold x. rewrite dget_dset_other by (intro He; apply Hk; symmetry; exact He).
    destruct (dget (py_str k) d) as [v|] eqn:Hv; simpl; [|reflexivity].
    rewrite Hdc in Hv. rewrite (dget_loaded _ _ _ Hv). reflexivity.
Qed.

(** Under the same conditions, [delete_task] of an id [get_task] finds
    succeeds and removes the lock file; [get_task] on that id then raises
    [KeyError], and [get_task] on any other id returns what it returned
    before the deletion. *)
Theorem delete_task_then_get_task (st : store) (k : json) (v : task) (temp : pystr) :
  (forall v, utf8_encode (json_dumps v) <> None) ->
  lock (mgr st) <> file_path (mgr st) ->
  with_suffix (file_path (mgr st)) (str_of ".tmp") = Ok temp ->
  temp <> lock (mgr st) ->
  NoDup (map fst (files (fs st))) ->
  (path_exists (file_path (mgr st)) (fs st) = true ->
     exists text, read_text (file_path (mgr st)) (fs st) = Ok text) ->
  fst (get_task k st) = Ok v ->
  exists st2, delete_task k st = (Ok tt, st2)
    /\ path_exists (lock (mgr st)) (fs st2) = false
    /\ get_task k st2 = (Raise (KeyError (not_found_msg k)), st2)
    /\ (forall k', py_str k' <> py_str k -> fst (get_task k' st2) = fst (get_task k' st)).
Proof.
  intros Henc Hlf Htmp Htl Hnd Hrd Hget.
  destruct (locked_load st Hnd Hlf Hrd)
    as (sa & d & s1 & Ha & Hl & Hl0 & Hp1 & Hl1 & Hm1 & Hnd1 & Hndd & (c & Hdc) & _ & _).
  destruct (load_all st) as [r0 s0] eqn:H0. simpl in Hl0. subst r0.
  unfold get_task in Hget. rewrite (bind_ok _ _ _ _ _ H0) in Hget.
  destruct (dget (py_str k) d) as [v0|] eqn:Hk; [|discriminate].
  set (x := ddel (py_str k) d).
  rewrite <- Hp1 in Htmp.
  destruct (save_all_ok x s1 temp Henc Htmp Hm1 Hnd1)
    as (s2 & Hs & Hp2 & Hl2 & Hc2 & Hm2 & _ & Hnd2).
  assert (Hlf2 : lock (mgr s2) <> file_path (mgr s2)) by congruence.
  destruct (unlock_cached s2 _ Hnd2 Hlf2 Hc2 Hm2) as (s3 & Hr & Hm3 & Hl3 & Hpl3 & _).
  assert (Hndx : NoDup (map fst x)) by (apply ddel_nodup; exact Hndd).
  exists s3. split; [|split; [|split]].
  - unfold delete_task. rewrite (bind_ok _ _ _ _ _ Ha).
    apply try_finally_ok with (s' := s2); [|exact Hr].
    rewrite (bind_ok _ _ _ _ _ Hl). unfold dmem. rewrite Hk. exact Hs.
  - rewrite Hl2, Hl1 in Hpl3. exact Hpl3.
  - unfold get_task. rewrite (bind_ok _ _ _ _ _ Hl3).
    rewrite copy_dict_of_dicts_idem, dget_copy_dict_of_dicts by exact Hndx.
    unfold x. rewrite dget_ddel_same by exact Hndd. reflexivity.
  - intros k' Hk'.
    unfold get_task. rewrite (bind_ok _ _ _ _ _ Hl3), (bind_ok _ _ _ _ _ H0).
    rewrite copy_dict_of_dicts_idem, dget_copy_dict_of_dicts by exact Hndx.
    unfold x. rewrite dget_ddel_other by (intro He; apply Hk'; symmetry; exact He).
    destruct (dget (py_str k') d) as [w|] eqn:Hw; simpl; [|reflexivity].
    rewrite Hdc in Hw. rewrite (dget_loaded _ _ _ Hw). reflexivity.
Qed.

(** [delete_task] of an id [get_task] does not find raises [KeyError] and
    writes nothing: afterwards the files are those from before, less the
    lock file, which is removed also when it existed before the call (the
    lock never makes the call wait). *)
Theorem delete_task_missing (st : store) (k : json) :
  lock (mgr st) <> file_path (mgr st) ->
  NoDup (map fst (files (fs st))) ->
  (path_exists (file_path (mgr st)) (fs st) = true ->
     exists text, read_text (file_path (mgr st)) (fs st) = Ok text) ->
  fst (get_task k st) = Raise (KeyError (not_found_msg k)) ->
  exists st2, delete_task k st = (Raise (KeyError (not_found_msg k)), st2)
    /\ files (fs st2) = ddel (lock (mgr st)) (files (fs st))
    /\ clock (fs st2) = clock (fs st).
Proof.
  intros Hlf Hnd Hrd Hget.
  destruct (locked_load st Hnd Hlf Hrd)
    as (sa & d & s1 & Ha & Hl & Hl0 & Hp1 & Hl1 & Hm1 & Hnd1 & Hndd & _ & Hdel & Hclk).
  destruct (load_all st) as [r0 s0] eqn:H0. simpl in Hl0. subst r0.
  unfold get_task in Hget. rewrite (bind_ok _ _ _ _ _ H0) in Hget.
  destruct (dget (py_str k) d) as [v0|] eqn:Hk; [discriminate|].
  destruct (release_lock_frame s1 Hnd1) as (s3 & Hr & Hm3 & Hf3 & Hc3 & _).
  exists s3. split; [|split].
  - unfold delete_task. rewrite (bind_ok _ _ _ _ _ Ha).
    apply try_finally_ok with (s' := s1); [|exact Hr].
    rewrite (bind_ok _ _ _ _ _ Hl). unfold dmem. rewrite Hk. reflexivity.
  - rewrite Hf3, Hl1. exact Hdel.
  - rewrite Hc3, Hclk.
    unfold acquire_lock, bind, get_mgr, get_fs in Ha. simpl in Ha.
    destruct (path_exists (lock (mgr st)) (fs st));
      injection Ha as <-; reflexivity.
Qed.


Lemma keep_dict_entries_app (kvs : list (pystr * json)) (acc : tasks) :
  NoDup (map fst kvs) -> (forall k, In k (map fst kvs) -> dget k acc = None) ->
  fold_left (fun acc '(k, v) => match v with JObj o => dset k o acc | _ => acc end)
            kvs acc
  = acc ++ flat_map (fun '(k, v) => match v with JObj o => [(k, o)] | _ => [] end) kvs.
Proof.
  revert acc. induction kvs as [|[k v] kvs IH]; intros acc Hnd Hacc; simpl.
  - rewrite app_nil_r. reflexivity.
  - inversion Hnd as [|? ? Hn Hnd']; subst.
    destruct v as [| | | | |o].
    1-5: apply IH; auto; intros k' Hk'; apply Hacc; simpl; auto.
    rewrite dset_absent by (apply Hacc; simpl; auto).
    rewrite IH; auto; [rewrite <- app_assoc; reflexivity|].
    intros k' Hk'. rewrite dget_app, (Hacc k') by (simpl; auto). simpl.
    rewrite pystr_eqb_neq; auto. intro He. subst. contradiction.
Qed.

Lemma read_text_exists (fp text : pystr) (f : fsys) :
  read_text fp f = Ok text -> path_exists fp f = true.
Proof.
  unfold read_text, path_exists, dmem. destruct (dget fp (files f)); [reflexivity|].
  discriminate.
Qed.

(** [_load_raw_data] returns [{}] for a missing file, a blank one, text
    that is not JSON and JSON that is not an object; for an object with
    distinct keys it returns exactly its dict-valued entries, in order. Its
    handler catches only [json.JSONDecodeError], so when reading an existing
    file raises (the bytes are not UTF-8), that exception propagates. *)
Theorem load_raw_data_spec (fp : pystr) (f : fsys) :
  (path_exists fp f = false -> load_raw_data fp f = Ok [])
  /\ (forall text, read_text fp f = Ok text ->
      (strip text = [] -> load_raw_data fp f = Ok [])
      /\ (strip text <> [] -> json_loads (strip text) = None -> load_raw_data fp f = Ok [])
      /\ (strip text <> [] -> forall v, json_loads (strip text) = Some v ->
          (forall kvs, v <> JObj kvs) -> load_raw_data fp f = Ok [])
      /\ (strip text <> [] -> forall kvs, json_loads (strip text) = Some (JObj kvs) ->
          NoDup (map fst kvs) ->
          load_raw_data fp f
          = Ok (flat_map (fun '(k, v) => match v with JObj o => [(k, o)] | _ => [] end)
                         kvs)))
  /\ (forall e, path_exists fp f = true -> read_text fp f = Raise e ->
      load_raw_data fp f = Raise e).
Proof.
  split; [|split].
  - intro Hp. unfold load_raw_data. rewrite Hp. reflexivity.
  - intros text Hr. pose proof (read_text_exists _ _ _ Hr) as Hp.
    unfold load_raw_data. rewrite Hp, Hr. simpl.
    split; [intros ->; reflexivity|].
    split; [|split].
    + intros Hs Hj. destruct (strip text); [contradiction Hs; reflexivity|].
      rewrite Hj. reflexivity.
    + intros Hs v Hj Hv. destruct (strip text); [contradiction Hs; reflexivity|].
      rewrite Hj. destruct v as [| | | | |o]; auto.
      exfalso. apply (Hv o). reflexivity.
    + intros Hs kvs Hj Hnd. destruct (strip text); [contradiction Hs; reflexivity|].
      rewrite Hj. unfold keep_dict_entries.
      rewrite keep_dict_entries_app; auto.
  - intros e Hp Hr. unfold load_raw_data. rewrite Hp, Hr. reflexivity.
Qed.

(** [create_storage] leaves an existing storage file untouched and creates
    a missing one holding ["{}"]; either way it returns a manager with an
    empty cache and the path with suffix [.lock] as its lock. *)
Theorem create_storage_spec (fp lk : pystr) (f : fsys) :
  with_suffix fp (str_of ".lock") = Ok lk ->
  (path_exists fp f = true ->
     create_storage fp f = (Ok (mkManager fp lk None None None), f))
  /\ (path_exists fp f = false ->
     exists f', create_storage fp f = (Ok (mkManager fp lk None None None), f')
       /\ read_text fp f' = Ok (str_of "{}")
       /\ (forall q, q <> fp -> dget q (files f') = dget q (files f))).
Proof.
  intro Hw. unfold create_storage, bind, ret. split.
  - intro Hp. rewrite Hp, Hw. reflexivity.
  - intro Hp. rewrite Hp. unfold open_w, write_text. simpl. rewrite Hw.
    eexists. split; [reflexivity|]. split.
    + unfold read_text. simpl. rewrite dget_dset_same. reflexivity.
    + intros q Hq. simpl. rewrite !dget_dset_other; auto.
Qed.

(** [get_task] and [list_tasks] take no lock and never touch the files,
    whatever they return. *)
Theorem reads_never_write (st : store) :
  (forall k, fs (snd (get_task k st)) = fs st)
  /\ (forall status, fs (snd (list_tasks status st)) = fs st).
Proof.
  assert (H : forall A (k : tasks -> ST store A),
             (forall d s, fs (snd (k d s)) = fs s) ->
             fs (snd (bind load_all k st)) = fs st).
  { intros A k Hk. unfold bind.
    destruct (load_all st) as [[d|e] s1] eqn:Hl.
    - rewrite Hk. apply (load_all_ok _ _ _ Hl).
    - apply load_all_err in Hl. subst. reflexivity. }
  split.
  - intro k. apply H. intros d s.
    destruct (dget (py_str k) d); reflexivity.
  - intro status. apply H. intros d s.
    simpl. destruct (sort_by_created_at
      (match status with
       | Some s0 => filter (status_is s0) (dvalues d)
       | None => dvalues d
       end)); reflexivity.
Qed.

End Json.

(** C6 (amended).  [_validate_repository] accepts a string exactly when its
    stripped form contains at least one ['/'] (so it is not blank), and
    returns that stripped form; [create_task] therefore only goes on with a
    repository holding a slash, and raises [ValueError] before any record
    is built when the stripped repository has none.  Several slashes are
    accepted. *)
Theorem create_task_repository_slash (d r b : option pystr) :
  (forall r0 s, validate_repository (Some r0) = Ok s <-> s = strip r0 /\ In 47 s)
  /\ (forall dd rr bb, create_task_inputs d r b = Ok (dd, rr, bb) ->
      exists r0, r = Some r0 /\ rr = strip r0 /\ In 47 rr)
  /\ (forall r0, r = Some r0 -> ~ In 47 (strip r0) ->
      exists m, create_task_inputs d r b = Raise (ValueError m)).
Proof.
  assert (Hv : forall r0 s, validate_repository (Some r0) = Ok s <->
                            s = strip r0 /\ In 47 s).
  { intros r0 s. unfold validate_repository.
    destruct (strip r0) as [|c0 t] eqn:Hs.
    - split; [discriminate|]. intros [-> []].
    - destruct (contains_char 47 (c0 :: t)) eqn:Hc; simpl.
      + apply contains_char_in in Hc. split.
        * intro H. injection H as <-. auto.
        * intros [-> _]. reflexivity.
      + split; [discriminate|]. intros [-> Hin].
        apply contains_char_in in Hin. congruence. }
  split; [exact Hv|split].
  - intros dd rr bb. unfold create_task_inputs.
    destruct (validate_description d); [|discriminate].
    destruct r as [r0|]; [|discriminate].
    destruct (validate_repository (Some r0)) as [s|] eqn:Hr; [|discriminate].
    destruct (normalize_branch b); [|discriminate].
    intro H. injection H as _ <- _. apply Hv in Hr. exists r0. tauto.
  - intros r0 -> Hno. unfold create_task_inputs.
    destruct (validate_description d) as [dd|e] eqn:Hd.
    + unfold validate_repository.
      destruct (strip r0) as [|c0 t] eqn:Hs; [eexists; reflexivity|].
      destruct (contains_char 47 (c0 :: t)) eqn:Hc.
      * apply contains_char_in in Hc. contradiction.
      * simpl. eexists; reflexivity.
    + unfold validate_description in Hd. destruct d as [d0|].
      * destruct (strip d0); [|discriminate].
        injection Hd as <-. eexists; reflexivity.
      * injection Hd as <-. eexists; reflexivity.
Qed.




(** [_save_raw_data] with a temporary path apart from the storage path:
    when the text encodes, the storage file holds its bytes and no
    temporary file is left; when it does not, [UnicodeEncodeError] leaves
    the storage file as it was and an empty temporary file behind. No
    other path changes. *)
Theorem save_raw_data_atomic (fp s temp : pystr) (f : fsys) :
  with_suffix fp (str_of ".tmp") = Ok temp -> temp <> fp ->
  NoDup (map fst (files f)) ->
  (forall bs, utf8_encode s = Some bs ->
     exists f', save_raw_data fp s f = (Ok tt, f')
       /\ dget fp (files f') = Some (mkFile bs (clock f))
       /\ dget temp (files f') = None
       /\ (forall q, q <> fp -> q <> temp -> dget q (files f') = dget q (files f)))
  /\ (utf8_encode s = None ->
     exists f', save_raw_data fp s f = (Raise UnicodeEncodeError, f')
       /\ dget fp (files f') = dget fp (files f)
       /\ dget temp (files f') = Some (mkFile [] (clock f))
       /\ (forall q, q <> fp -> q <> temp -> dget q (files f') = dget q (files f))).
Proof.
  intros Hw Hne Hnd. unfold save_raw_data. rewrite Hw.
  unfold bind, open_w, write_text, os_replace. simpl. split.
  - intros bs He. rewrite He. simpl. rewrite dget_dset_same.
    rewrite pystr_eqb_neq by exact Hne.
    eexists. split; [reflexivity|]. simpl. split; [apply dget_dset_same|]. split.
    + rewrite dget_dset_other by auto. apply dget_ddel_same.
      apply dset_nodup, dset_nodup. exact Hnd.
    + intros q Hq Ht. rewrite dget_dset_other by auto.
      rewrite dget_ddel_other by auto. rewrite !dget_dset_other; auto.
  - intro He. rewrite He. eexists. split; [reflexivity|]. simpl.
    split; [apply dget_dset_other; auto|]. split; [apply dget_dset_same|].
    intros q Hq Ht. apply dget_dset_other. auto.
Qed.

(** ** Examples *)

Lemma invoke_tool_error_response_keyerror_witness :
  exists c1,
    send_and_read (loads_const (JObj error_response)) (dumps_const [])
      [] [] running_client = (Ok error_response, c1)
    /\ invoke_tool (loads_const (JObj error_response)) (dumps_const [])
         (dumps_const []) [] [] running_client
       = (Raise (KeyError (str_of "Attempt to overwrite 'message' in LogRecord")), c1).
Proof.
  eexists. split; [reflexivity|].
  exact (proj1 (invoke_tool_error_response_keyerror (loads_const (JObj error_response))
                  (dumps_const []) (dumps_const []) [] [] running_client _
                  error_response eq_refl)
           (JObj [(str_of "message", JStr (str_of "X"))]) eq_refl).
Defined.

Lemma invoke_tool_null_result_witness :
  exists c1,
    send_and_read (loads_const (JObj null_result_response)) (dumps_const [])
      [] [] running_client = (Ok null_result_response, c1)
    /\ dget (str_of "error") null_result_response = None
    /\ dget (str_of "result") null_result_response = Some JNull
    /\ invoke_tool (loads_const (JObj null_result_response)) (dumps_const [])
         (dumps_const []) [] [] running_client
       = (Raise (RuntimeError missing_result_msg), c1).
Proof.
  eexists. split; [reflexivity|]. split; [reflexivity|]. split; [reflexivity|].
  exact (invoke_tool_null_result (loads_const (JObj null_result_response))
           (dumps_const []) (dumps_const []) [] [] running_client _
           null_result_response eq_refl eq_refl eq_refl).
Defined.

Lemma stop_client_lenient_witness :
  stop_client (with_process idle_client (Some (mkProc true false None [] [])))
  = (Ok true, with_process (with_signal (with_process idle_client
                (Some (mkProc true false None [] []))) SIGTERM) None)
  /\ stop_client (with_process idle_client (Some (mkProc true true None [] [])))
     = (Ok true, with_process (with_process idle_client
                  (Some (mkProc true true None [] []))) None)
  /\ stop_client idle_client = (Ok false, idle_client).
Proof.
  split; [|split].
  - exact (proj2 (proj2 (stop_client_lenient
             (with_process idle_client (Some (mkProc true false None [] [])))))
             (mkProc true false None [] []) eq_refl eq_refl eq_refl).
  - exact (proj1 (proj2 (stop_client_lenient
             (with_process idle_client (Some (mkProc true true None [] [])))))
             (mkProc true true None [] []) eq_refl eq_refl).
  - exact (proj1 (stop_client_lenient idle_client) eq_refl).
Defined.

Lemma use_client_one_session_witness :
  0 <= active_contexts idle_client
  /\ (forall c1 x1,
        ctx_enter (Spawned answering_proc) (use_client, idle_client)
        = (Ok c1, (x1, c1)) ->
        exists p, Spawned answering_proc = Spawned p /\ process c1 = Some p
          /\ 0 < active_contexts c1 /\ entered x1 = true)
  /\ (exists e, ctx_enter (Spawned answering_proc)
                  (mkCtx true true, idle_client)
                = (Raise (RuntimeError e), (mkCtx true true, idle_client))).
Proof.
  split; [simpl; lia|]. split.
  - exact (proj1 (proj2 (use_client_one_session (Spawned answering_proc)
                           use_client idle_client ltac:(simpl; lia)))).
  - exact (proj1 (use_client_one_session (Spawned answering_proc)
                    (mkCtx true true) idle_client ltac:(simpl; lia))
             (or_introl eq_refl)).
Defined.

Lemma create_task_repository_slash_witness :
  validate_repository (Some (str_of " octo/repo ")) = Ok (str_of "octo/repo")
  /\ (exists m, create_task_inputs (Some (str_of "fix")) (Some (str_of "repo"))
                  None = Raise (ValueError m)).
Proof.
  split.
  - apply (proj1 (create_task_repository_slash None None None)).
    split; [reflexivity|simpl; tauto].
  - apply (proj2 (proj2 (create_task_repository_slash (Some (str_of "fix"))
                           (Some (str_of "repo")) None)) (str_of "repo") eq_refl).
    simpl. intros [H|[H|[H|[H|[]]]]]; discriminate.
Defined.

(** C6 counterexample: "a/b/c" has two slashes and is accepted. *)
Lemma repository_two_slashes_counterexample :
  validate_repository (Some (str_of "a/b/c")) = Ok (str_of "a/b/c")
  /\ create_task_inputs (Some (str_of "fix")) (Some (str_of "a/b/c")) None
     = Ok (str_of "fix", str_of "a/b/c", str_of "main").
Proof. split; reflexivity. Defined.

Lemma list_tasks_filter_sorted_witness :
  exists d st1,
    load_all (loads_const two_tasks_json) (dumps_const []) json_store = (Ok d, st1)
    /\ (forall t, In t (dvalues d) -> created_at_is_string t)
    /\ exists l,
         list_tasks (loads_const two_tasks_json) (dumps_const [])
           (Some (str_of "done")) json_store = (Ok l, st1)
         /\ Permutation l (filter (status_field_eqb (str_of "done")) (dvalues d))
         /\ Sorted created_le l.
Proof.
  destruct (load_all (loads_const two_tasks_json) (dumps_const []) json_store)
    as [[d|e] st1] eqn:H; [|vm_compute in H; discriminate].
  pose proof H as H'. vm_compute in H'. injection H' as Hd _.
  assert (Hs : forall t, In t (dvalues d) -> created_at_is_string t).
  { rewrite <- Hd. simpl. intros t [<-|[<-|[<-|[]]]]; eexists; reflexivity. }
  exists d, st1. split; [reflexivity|]. split; [exact Hs|].
  exact (list_tasks_filter_sorted (loads_const two_tasks_json) (dumps_const [])
           (Some (str_of "done")) json_store st1 d H Hs).
Defined.

Lemma save_get_lock_named_store_witness :
  (forall v, utf8_encode (dumps_const (str_of "{}") v) <> None)
  /\ exists m fs1 st2,
    create_storage tasks_lock_path (mkFs [] 0) = (Ok m, fs1)
    /\ lock m = file_path m
    /\ save_task (loads_const (JObj [])) (dumps_const (str_of "{}")) (dumps_const [])
         [(str_of "id", JStr (str_of "t1"))] (mkStore fs1 m) = (Ok tt, st2)
    /\ path_exists tasks_lock_path (fs st2) = false
    /\ fst (get_task (loads_const (JObj [])) (dumps_const (str_of "{}"))
              (dumps_const []) (JStr (str_of "t1")) st2)
       = Raise (KeyError (not_found_msg (dumps_const []) (JStr (str_of "t1")))).
Proof.
  assert (Henc : forall v, utf8_encode (dumps_const (str_of "{}") v) <> None).
  { intro v. vm_compute. discriminate. }
  split; [exact Henc|].
  exact (save_get_lock_named_store (loads_const (JObj [])) (dumps_const (str_of "{}"))
           (dumps_const []) 0 Henc).
Defined.

Lemma delete_missing_lock_named_store_witness :
  loads_const (JObj [(str_of "t1", JObj [])]) one_task_text
  = Some (JObj [(str_of "t1", JObj [])])
  /\ exists m st1,
    create_storage tasks_lock_path
      (mkFs [(tasks_lock_path, mkFile one_task_bytes 0)] 0)
    = (Ok m, mkFs [(tasks_lock_path, mkFile one_task_bytes 0)] 0)
    /\ fst (load_all (loads_const (JObj [(str_of "t1", JObj [])])) (dumps_const [])
              (mkStore (mkFs [(tasks_lock_path, mkFile one_task_bytes 0)] 0) m))
       = Ok [(str_of "t1", [])]
    /\ delete_task (loads_const (JObj [(str_of "t1", JObj [])])) (dumps_const [])
         (dumps_const []) (JStr (str_of "t2"))
         (mkStore (mkFs [(tasks_lock_path, mkFile one_task_bytes 0)] 0) m)
       = (Raise (KeyError (not_found_msg (dumps_const []) (JStr (str_of "t2")))), st1)
    /\ path_exists tasks_lock_path (fs st1) = false
    /\ fst (load_all (loads_const (JObj [(str_of "t1", JObj [])])) (dumps_const [])
              st1) = Ok [].
Proof.
  split; [reflexivity|].
  exact (delete_missing_lock_named_store (loads_const (JObj [(str_of "t1", JObj [])]))
           (dumps_const []) (dumps_const []) 0 eq_refl).
Defined.

Lemma failed_start_blocks_client_witness :
  exists c1,
    with_session (SpawnError (str_of "ENOENT")) (ret tt) (use_client, sample_client)
    = (Raise (RuntimeError (str_of "Failed to start MCP server: ENOENT")),
       (mkCtx true false, c1))
    /\ with_session (Spawned answering_proc) (ret tt) (use_client, c1)
       = (Raise (RuntimeError (str_of "Client context already active")),
          (use_client, c1)).
Proof.
  destruct (failed_start_blocks_client sample_client (str_of "ENOENT") eq_refl
              ltac:(intros p H; discriminate)) as (c1 & H1 & _ & _ & H4).
  exists c1. split; [apply H1|apply H4].
Defined.

Lemma invoke_tool_request_ids_witness :
  request_id_generator
    (snd (invoke_tool (loads_const (JObj [])) (dumps_const []) (dumps_const []) [] []
            (snd (invoke_tool (loads_const (JObj [])) (dumps_const []) (dumps_const [])
                    [] [] running_client))))
  = Some 2.
Proof.
  exact (proj1 (invoke_tool_request_ids (loads_const (JObj [])) (dumps_const [])
                  (dumps_const []) [] [] [] [] running_client answering_proc
                  ltac:(simpl; lia) eq_refl)).
Defined.

Lemma read_json_rpc_response_skips_blank_witness :
  read_json_rpc_response (loads_const (JObj []))
    (with_process idle_client (Some blank_lines_proc))
  = (Ok [], with_process (with_process idle_client (Some blank_lines_proc))
                         (Some (mkProc true false (Some 0) [] []))).
Proof.
  apply (proj1 (read_json_rpc_response_skips_blank (loads_const (JObj []))
                  (with_process idle_client (Some blank_lines_proc)) blank_lines_proc
                  [[10]; [32; 10]] [] eq_refl
                  ltac:(repeat constructor; discriminate))
           (str_of "{}") []).
  - discriminate.
  - reflexivity.
  - reflexivity.
Defined.

Lemma save_task_then_get_task_witness :
  exists st2,
    save_task (loads_const (JObj [])) (dumps_const []) (dumps_const []) t1_task json_store
    = (Ok tt, st2)
    /\ get_task (loads_const (JObj [])) (dumps_const []) (dumps_const [])
         (JStr (str_of "t1")) st2 = (Ok t1_task, st2).
Proof.
  destruct (save_task_then_get_task (loads_const (JObj [])) (dumps_const [])
              (dumps_const []) json_store t1_task (JStr (str_of "t1")) tasks_tmp_path
              ltac:(intros v; discriminate) ltac:(discriminate) eq_refl
              ltac:(discriminate) ltac:(repeat constructor; simpl; tauto)
              ltac:(intros _; eexists; reflexivity) eq_refl
              ltac:(repeat constructor; simpl; tauto))
    as (st2 & H1 & _ & H3 & _).
  exists st2. split; assumption.
Defined.

Lemma delete_task_then_get_task_witness :
  exists st2,
    delete_task (loads_const (JObj [(str_of "t1", JObj [])])) (dumps_const [])
      (dumps_const []) (JStr (str_of "t1")) json_store = (Ok tt, st2)
    /\ get_task (loads_const (JObj [(str_of "t1", JObj [])])) (dumps_const [])
         (dumps_const []) (JStr (str_of "t1")) st2
       = (Raise (KeyError (not_found_msg (dumps_const []) (JStr (str_of "t1")))), st2).
Proof.
  destruct (delete_task_then_get_task (loads_const (JObj [(str_of "t1", JObj [])]))
              (dumps_const []) (dumps_const []) json_store (JStr (str_of "t1")) []
              tasks_tmp_path
              ltac:(intros v; discriminate) ltac:(discriminate) eq_refl
              ltac:(discriminate) ltac:(repeat constructor; simpl; tauto)
              ltac:(intros _; eexists; reflexivity) eq_refl)
    as (st2 & H1 & _ & H3 & _).
  exists st2. split; assumption.
Defined.

Lemma delete_task_missing_witness :
  exists st2,
    delete_task (loads_const (JObj [(str_of "t1", JObj [])])) (dumps_const [])
      (dumps_const []) (JStr (str_of "t2")) json_store
    = (Raise (KeyError (not_found_msg (dumps_const []) (JStr (str_of "t2")))), st2)
    /\ files (fs st2) = files (fs json_store).
Proof.
  destruct (delete_task_missing (loads_const (JObj [(str_of "t1", JObj [])]))
              (dumps_const []) (dumps_const []) json_store (JStr (str_of "t2"))
              ltac:(discriminate) ltac:(repeat constructor; simpl; tauto)
              ltac:(intros _; eexists; reflexivity) eq_refl)
    as (st2 & H1 & H2 & _).
  exists st2. split; [exact H1|]. rewrite H2. reflexivity.
Defined.

Lemma save_raw_data_atomic_witness :
  exists f', save_raw_data tasks_json_path (str_of "{}") (fs json_store) = (Ok tt, f')
    /\ dget tasks_json_path (files f') = Some (mkFile [x7b; x7d] 0)
    /\ dget tasks_tmp_path (files f') = None.
Proof.
  destruct (proj1 (save_raw_data_atomic tasks_json_path (str_of "{}") tasks_tmp_path
                     (fs json_store) eq_refl ltac:(discriminate)
                     ltac:(repeat constructor; simpl; tauto))
              [x7b; x7d] eq_refl) as (f' & H1 & H2 & H3 & _).
  exists f'. auto.
Defined.

Lemma create_storage_spec_witness :
  exists f', create_storage tasks_json_path (mkFs [] 0)
             = (Ok (mkManager tasks_json_path tasks_lock_path None None None), f')
    /\ read_text tasks_json_path f' = Ok (str_of "{}").
Proof.
  destruct (proj2 (create_storage_spec tasks_json_path tasks_lock_path (mkFs [] 0)
                     eq_refl) eq_refl) as (f' & H1 & H2 & _).
  exists f'. auto.
Defined.
